(** * Server actions of the invoice dashboard: a shallow embedding

    Sources embedded here:
      - [src/app/lib/actions.ts]         (signup, createInvoice, updateInvoice,
                                          deleteInvoice, authenticate)
      - [src/app/lib/actions/signup.ts]  (the second signup variant)

    JavaScript strings are modelled by [string]; one [ascii] stands for one
    UTF-16 code unit below 256, so [String.length] is the [.length] of the
    source.  JavaScript numbers are the binary64 floats of [PrimFloat].
    The handlers are [async] functions whose [await]s are sequential: they are
    written in a state-and-exception monad over an explicit world (database,
    fault script, entropy, clock, event trace). *)

From Stdlib Require Import ZArith Floats String Ascii DecimalString List Bool Lia.
Import ListNotations.
Local Open Scope string_scope.

(** ** JavaScript values that reach the schemas *)

(** [FormData.get] yields a string, a [File], or [null]; zod schemas accept any
    value, of which [undefined] is the only other one they treat specially. *)
Inductive JsVal : Type :=
| JUndefined
| JNull
| JStr (s : string)
| JFile (filename : string).

(** zod's [getParsedType], as it is printed in default messages. *)
Definition parsedType (v : JsVal) : string :=
  match v with
  | JUndefined => "undefined"
  | JNull => "null"
  | JStr _ => "string"
  | JFile _ => "object"
  end.

(** ** [Number(value)]: ECMAScript ToNumber on the values above *)

Module Number.

Local Open Scope Z_scope.

(** The binary64 nearest to [n / d] (ties to even), for [0 <= n] and [0 < d].
    The quotient is taken with at least 64 significant bits and a sticky bit,
    then rounded once by [binary_normalize]. *)
Definition round_ratio (neg : bool) (n d : Z) : float :=
  if n =? 0 then (if neg then PrimFloat.neg_zero else PrimFloat.zero)
  else
    let s := Z.log2 d + 64 in
    let q := (n * 2 ^ s) / d in
    let r := (n * 2 ^ s) mod d in
    let m := 2 * q + (if r =? 0 then 0 else 1) in
    SF2Prim (binary_normalize prec emax (if neg then - m else m) (- s - 1) false).

(** The binary64 nearest to [n * 10 ^ e]. *)
Definition round_decimal (neg : bool) (n e : Z) : float :=
  if 0 <=? e then round_ratio neg (n * 10 ^ e) 1
  else round_ratio neg n (10 ^ (- e)).

(** StrWhiteSpaceChar, restricted to code units below 256:
    TAB, LF, VT, FF, CR, SP and NBSP. *)
Definition is_white_space (c : ascii) : bool :=
  let k := nat_of_ascii c in
  ((9 <=? k) && (k <=? 13))%nat || (k =? 32)%nat || (k =? 160)%nat.

Fixpoint trim_start (s : string) : string :=
  match s with
  | String c r => if is_white_space c then trim_start r else s
  | EmptyString => EmptyString
  end.

Fixpoint trim_end (s : string) : string :=
  match s with
  | EmptyString => EmptyString
  | String c r =>
      match trim_end r with
      | EmptyString => if is_white_space c then EmptyString else String c EmptyString
      | r' => String c r'
      end
  end.

Definition trim (s : string) : string := trim_end (trim_start s).

(** The value of a digit in the given radix, if it is one. *)
Definition digit_value (radix : Z) (c : ascii) : option Z :=
  let k := Z.of_nat (nat_of_ascii c) in
  let v :=
    if (48 <=? k) && (k <=? 57) then k - 48
    else if (97 <=? k) && (k <=? 102) then k - 87
    else if (65 <=? k) && (k <=? 70) then k - 55
    else radix in
  if v <? radix then Some v else None.

(** Longest prefix of digits: its value (after the accumulator), how many
    digits were read, and the rest of the input. *)
Fixpoint read_digits (radix : Z) (acc : Z) (count : nat) (s : string)
  : Z * nat * string :=
  match s with
  | String c r =>
      match digit_value radix c with
      | Some v => read_digits radix (acc * radix + v) (S count) r
      | None => (acc, count, s)
      end
  | EmptyString => (acc, count, s)
  end.

(** ExponentPart, optional: [e] or [E], an optional sign, at least one digit. *)
Definition read_exponent (s : string) : option (Z * string) :=
  match s with
  | String c r =>
      if (Ascii.eqb c "e" || Ascii.eqb c "E")%bool then
        let '(neg, r1) :=
          match r with
          | String "+" r' => (false, r')
          | String "-" r' => (true, r')
          | _ => (false, r)
          end in
        let '(v, k, r2) := read_digits 10 0 0%nat r1 in
        match k with
        | O => None
        | S _ => Some (if neg then - v else v, r2)
        end
      else Some (0, s)
  | EmptyString => Some (0, s)
  end.

(** StrUnsignedDecimalLiteral: [Infinity], or digits with an optional
    fraction and exponent; at least one digit before the exponent. *)
Definition unsigned_decimal (neg : bool) (s : string) : float :=
  if String.eqb s "Infinity" then (if neg then PrimFloat.neg_infinity else PrimFloat.infinity)
  else
    let '(ip, ni, r1) := read_digits 10 0 0%nat s in
    let '(m, nf, r2) :=
      match r1 with
      | String "." r => read_digits 10 ip 0%nat r
      | _ => (ip, 0%nat, r1)
      end in
    match (ni + nf)%nat with
    | O => PrimFloat.nan
    | S _ =>
        match read_exponent r2 with
        | Some (e, EmptyString) => round_decimal neg m (e - Z.of_nat nf)
        | _ => PrimFloat.nan
        end
    end.

(** NonDecimalIntegerLiteral after its two-character prefix. *)
Definition non_decimal (radix : Z) (s : string) : float :=
  match read_digits radix 0 0%nat s with
  | (v, S _, EmptyString) => round_ratio false v 1
  | _ => PrimFloat.nan
  end.

(** StringToNumber. *)
Definition of_string (s : string) : float :=
  match trim s with
  | EmptyString => PrimFloat.zero
  | String "+" r => unsigned_decimal false r
  | String "-" r => unsigned_decimal true r
  | String "0" (String "x" r) | String "0" (String "X" r) => non_decimal 16 r
  | String "0" (String "o" r) | String "0" (String "O" r) => non_decimal 8 r
  | String "0" (String "b" r) | String "0" (String "B" r) => non_decimal 2 r
  | t => unsigned_decimal false t
  end.

(** [Number(v)]: [null] is [+0], [undefined] is [NaN], a [File] converts
    through its string ["[object File]"], which is not numeric. *)
Definition of_value (v : JsVal) : float :=
  match v with
  | JUndefined => PrimFloat.nan
  | JNull => PrimFloat.zero
  | JStr s => of_string s
  | JFile _ => of_string "[object File]"
  end.

(** A finite float with no fractional part. *)
Definition is_integer (x : float) : bool :=
  match Prim2SF x with
  | S754_zero _ => true
  | S754_finite _ m e =>
      if 0 <=? e then true else (Z.pos m mod 2 ^ (- e) =? 0)
  | _ => false
  end.

End Number.

(** ** Form data *)

(** A [FormData] is an ordered list of entries; a key may occur more than
    once and [get] answers with the first one. *)
Inductive FormDataEntryValue : Type :=
| Text (s : string)
| Blob (filename : string).

Definition FormData : Type := list (string * FormDataEntryValue).

Definition entry_value (e : FormDataEntryValue) : JsVal :=
  match e with
  | Text s => JStr s
  | Blob f => JFile f
  end.

(** [formData.get(key)]: the first value under [key], [null] without one. *)
Fixpoint get (key : string) (formData : FormData) : JsVal :=
  match formData with
  | [] => JNull
  | (k, v) :: rest => if String.eqb k key then entry_value v else get key rest
  end.

Definition has_key (key : string) (formData : FormData) : bool :=
  existsb (fun kv => String.eqb (fst kv) key) formData.

(** ** zod schemas *)

Module Zod.

(** The outcome of one field: the parsed value, or the messages of its
    issues as [flatten().fieldErrors] lists them. *)
Inductive Parsed (A : Type) : Type :=
| Valid (data : A)
| Invalid (messages : list string).
Arguments Valid {A} data.
Arguments Invalid {A} messages.

Definition issues {A : Type} (p : Parsed A) : option (list string) :=
  match p with
  | Valid _ => None
  | Invalid ms => Some ms
  end.

(** The message of an [invalid_type] issue: ["Required"] for [undefined],
    else the schema's [invalid_type_error] when it has one, else the default. *)
Definition invalid_type (custom : option string) (expected : string) (v : JsVal)
  : string :=
  match v with
  | JUndefined => "Required"
  | _ =>
      match custom with
      | Some m => m
      | None => "Expected " ++ expected ++ ", received " ++ parsedType v
      end
  end.

(** [z.string({ invalid_type_error })] *)
Definition string_ (invalid_type_error : option string) (v : JsVal)
  : Parsed string :=
  match v with
  | JStr s => Valid s
  | _ => Invalid [invalid_type invalid_type_error "string" v]
  end.

(** [z.string().min(n, { message })] *)
Definition string_min (n : nat) (message : string) (v : JsVal) : Parsed string :=
  match string_ None v with
  | Valid s => if Nat.ltb (String.length s) n then Invalid [message] else Valid s
  | Invalid ms => Invalid ms
  end.

(** [z.string().email({ message })], over the library's email pattern. *)
Definition string_email (pattern : string -> bool) (message : string) (v : JsVal)
  : Parsed string :=
  match string_ None v with
  | Valid s => if pattern s then Valid s else Invalid [message]
  | Invalid ms => Invalid ms
  end.

(** [z.coerce.number().gt(bound, { message })]: the input goes through
    [Number(...)]; [NaN] is a type issue; then [data <= bound] is too small. *)
Definition coerce_number_gt (bound : float) (message : string) (v : JsVal)
  : Parsed float :=
  let data := Number.of_value v in
  if PrimFloat.is_nan data then Invalid ["Expected number, received nan"]
  else if PrimFloat.leb data bound then Invalid [message]
  else Valid data.

(** [z.enum(values, { invalid_type_error })] *)
Definition enum (values : list string) (invalid_type_error : option string)
    (v : JsVal) : Parsed string :=
  let expected := String.concat " | " (map (fun x => "'" ++ x ++ "'") values) in
  match v with
  | JStr s =>
      if existsb (String.eqb s) values then Valid s
      else Invalid ["Invalid enum value. Expected " ++ expected
                      ++ ", received '" ++ s ++ "'"]
  | _ => Invalid [invalid_type invalid_type_error expected v]
  end.

(** The result of [schema.safeParse]: [data] on success, and on failure the
    [error.flatten().fieldErrors] object. *)
Inductive SafeParse (A E : Type) : Type :=
| Success (data : A)
| Failure (fieldErrors : E).
Arguments Success {A E} data.
Arguments Failure {A E} fieldErrors.

Definition success {A E : Type} (r : SafeParse A E) : bool :=
  match r with
  | Success _ => true
  | Failure _ => false
  end.

End Zod.

(** *** [SignupSchema] and [SignupState]  (actions.ts 14-27) *)

Record SignupInput : Type := {
  in_name : JsVal;
  in_email : JsVal;
  in_password : JsVal
}.

Record SignupData : Type := {
  name : string;
  email : string;
  password : string
}.

(** The [errors] object: a key is present exactly when its field has issues. *)
Record SignupErrors : Type := {
  err_name : option (list string);
  err_email : option (list string);
  err_password : option (list string)
}.

Record SignupState : Type := {
  errors : option SignupErrors;
  message : option string
}.

Section Schemas.

(** zod's email pattern, a regular expression of the library. *)
Variable email_pattern : string -> bool.

Definition SignupSchema_safeParse (i : SignupInput)
  : Zod.SafeParse SignupData SignupErrors :=
  let n := Zod.string_min 1 "Name is required" (in_name i) in
  let e := Zod.string_email email_pattern "Invalid email address" (in_email i) in
  let p := Zod.string_min 6 "Password must be at least 6 characters long"
             (in_password i) in
  match n, e, p with
  | Zod.Valid n', Zod.Valid e', Zod.Valid p' =>
      Zod.Success {| name := n'; email := e'; password := p' |}
  | _, _, _ =>
      Zod.Failure {| err_name := Zod.issues n;
                     err_email := Zod.issues e;
                     err_password := Zod.issues p |}
  end.

End Schemas.

(** *** [FormSchema], [CreateInvoice], [Updateinvoice], [State]
        (actions.ts 87-113) *)

Record InvoiceInput : Type := {
  in_customerId : JsVal;
  in_amount : JsVal;
  in_status : JsVal
}.

Record InvoiceData : Type := {
  customerId : string;
  amount : float;
  status : string
}.

Record InvoiceErrors : Type := {
  err_customerId : option (list string);
  err_amount : option (list string);
  err_status : option (list string)
}.

Record State : Type := {
  st_errors : option InvoiceErrors;
  st_message : option string
}.

(** [FormSchema.omit({ id: true, data: true })]: the three remaining keys. *)
Definition FormSchema_omit_id_data_safeParse (i : InvoiceInput)
  : Zod.SafeParse InvoiceData InvoiceErrors :=
  let c := Zod.string_ (Some "Please select a customer") (in_customerId i) in
  let a := Zod.coerce_number_gt PrimFloat.zero
             "Please enter an amount greater than $0" (in_amount i) in
  let s := Zod.enum ["pending"; "paid"] (Some "Please select an invoice status")
             (in_status i) in
  match c, a, s with
  | Zod.Valid c', Zod.Valid a', Zod.Valid s' =>
      Zod.Success {| customerId := c'; amount := a'; status := s' |}
  | _, _, _ =>
      Zod.Failure {| err_customerId := Zod.issues c;
                     err_amount := Zod.issues a;
                     err_status := Zod.issues s |}
  end.

Definition CreateInvoice_safeParse := FormSchema_omit_id_data_safeParse.
Definition Updateinvoice_safeParse := FormSchema_omit_id_data_safeParse.

(** ** The relational store *)

Module Db.

Record UserRow : Type := {
  user_name : option string;
  user_email : string;
  user_password : string
}.

Record InvoiceRow : Type := {
  invoice_id : nat;
  invoice_customer_id : string;
  invoice_amount : float;
  invoice_status : string;
  invoice_date : string
}.

Record t : Type := {
  users : list UserRow;
  invoices : list InvoiceRow;
  serial : nat
}.

Definition empty : t := {| users := []; invoices := []; serial := 0 |}.

(** The statements of the two source files, one constructor per template,
    carrying the interpolated parameters in their order. *)
Inductive Stmt : Type :=
| SelectNameFromUsers (name : string)
    (* SELECT name FROM users WHERE name=$1 *)
| SelectEmailFromUsers (email : string)
    (* SELECT email FROM users WHERE email=$1 *)
| InsertUsersNameEmailPassword (name email password : string)
    (* INSERT INTO users (name, email, password) VALUES ($1, $2, $3) *)
| InsertUsersEmailPassword (email password : string)
    (* INSERT INTO users (email, password) VALUES ($1, $2) *)
| InsertInvoices (customer_id : string) (amount : float) (status date : string)
    (* INSERT INTO invoices (customer_id, amount, status, date) VALUES (...) *)
| UpdateInvoice (customer_id : string) (amount : float) (status id : string)
    (* UPDATE invoice SET customer_id = $1, amount = $2, status = $3 WHERE id = $4 *)
| DeleteFromInvoices (id : string).
    (* DELETE FROM invoices WHERE id = $1 *)

Definition is_insert (q : Stmt) : bool :=
  match q with
  | InsertUsersNameEmailPassword _ _ _ | InsertUsersEmailPassword _ _
  | InsertInvoices _ _ _ _ => true
  | _ => false
  end.

Definition is_update (q : Stmt) : bool :=
  match q with
  | UpdateInvoice _ _ _ _ => true
  | _ => false
  end.

Definition name_is (n : string) (r : UserRow) : bool :=
  match user_name r with
  | Some m => String.eqb m n
  | None => false
  end.

Definition email_is (e : string) (r : UserRow) : bool :=
  String.eqb (user_email r) e.

Definition id_is (id : string) (r : InvoiceRow) : bool :=
  String.eqb (NilEmpty.string_of_uint (Nat.to_uint (invoice_id r))) id.

(** One statement against the store: the rows it returns (one column each)
    and the store after it.  The schema has the tables [users] and
    [invoices] only, so the statement on [invoice] is refused ([None]).
    The types and constraints of the columns are not part of this model: a
    row is kept with the values the statement hands over, and a store that
    refuses a value (an amount that is no integer, a name that is taken)
    is a run whose fault script fails that statement. *)
Definition exec (q : Stmt) (d : t) : option (list string * t) :=
  match q with
  | SelectNameFromUsers n =>
      Some (map (fun r => n) (filter (name_is n) (users d)), d)
  | SelectEmailFromUsers e =>
      Some (map user_email (filter (email_is e) (users d)), d)
  | InsertUsersNameEmailPassword n e p =>
      Some ([], {| users := users d ++ [{| user_name := Some n;
                                           user_email := e;
                                           user_password := p |}];
                   invoices := invoices d;
                   serial := serial d |})
  | InsertUsersEmailPassword e p =>
      Some ([], {| users := users d ++ [{| user_name := None;
                                           user_email := e;
                                           user_password := p |}];
                   invoices := invoices d;
                   serial := serial d |})
  | InsertInvoices c a s dt =>
      Some ([], {| users := users d;
                   invoices := invoices d ++ [{| invoice_id := serial d;
                                                 invoice_customer_id := c;
                                                 invoice_amount := a;
                                                 invoice_status := s;
                                                 invoice_date := dt |}];
                   serial := S (serial d) |})
  | UpdateInvoice _ _ _ _ => None
  | DeleteFromInvoices id =>
      Some ([], {| users := users d;
                   invoices := filter (fun r => negb (id_is id r)) (invoices d);
                   serial := serial d |})
  end.

End Db.

(** ** Exceptions, events and the world *)

Inductive Exn : Type :=
| Error (message : string)          (* new Error(message) *)
| AuthError (type : string)         (* next-auth's AuthError and subclasses *)
| RedirectError (url : string)      (* what next/navigation's redirect throws *)
| PostgresError (message : string)  (* what the sql client throws *)
| OtherError (description : string).

Inductive Event : Type :=
| Sql (q : Db.Stmt)
| BcryptHash (data : string) (rounds : nat)
| ConsoleError (label : string) (e : Exn)
| RevalidatePath (path : string).

Fixpoint statements (evs : list Event) : list Db.Stmt :=
  match evs with
  | [] => []
  | Sql q :: rest => q :: statements rest
  | _ :: rest => statements rest
  end.

(** [faults] scripts the database: the n-th statement issued from now on is
    answered by an exception when the n-th flag is set (none when the script
    has run out).  [entropy] seeds the next salt of bcrypt, [now] is the
    clock as [toISOString] prints it, [trace] lists what happened so far. *)
Record World : Type := {
  db : Db.t;
  faults : list bool;
  entropy : nat;
  now : string;
  trace : list Event
}.

Definition emit (e : Event) (w : World) : World :=
  {| db := db w; faults := faults w; entropy := entropy w; now := now w;
     trace := trace w ++ [e] |}.

Definition db_available (w : World) : Prop := forallb negb (faults w) = true.

(** ** The monad of the handlers *)

Inductive Outcome (A : Type) : Type :=
| Returned (value : A)
| Threw (e : Exn).
Arguments Returned {A} value.
Arguments Threw {A} e.

Definition M (A : Type) : Type := World -> Outcome A * World.

Definition ret {A : Type} (a : A) : M A := fun w => (Returned a, w).

Definition bind {A B : Type} (m : M A) (k : A -> M B) : M B :=
  fun w =>
    match m w with
    | (Returned a, w') => k a w'
    | (Threw e, w') => (Threw e, w')
    end.

Definition throw {A : Type} (e : Exn) : M A := fun w => (Threw e, w).

(** [try { body } catch (e) { handler }] *)
Definition try_catch {A : Type} (body : M A) (handler : Exn -> M A) : M A :=
  fun w =>
    match body w with
    | (Returned a, w') => (Returned a, w')
    | (Threw e, w') => handler e w'
    end.

Declare Scope action_scope.
Delimit Scope action_scope with action.
Notation "x <- c ;; k" := (bind c (fun x => k))
  (at level 61, c at next level, right associativity) : action_scope.
Notation "c ;; k" := (bind c (fun _ => k))
  (at level 61, right associativity) : action_scope.
Local Open Scope action_scope.

(** *** The collaborators as actions *)

(** [await sql`...`] *)
Definition sql (q : Db.Stmt) : M (list string) :=
  fun w =>
    let issued := {| db := db w; faults := tl (faults w); entropy := entropy w;
                     now := now w; trace := trace w ++ [Sql q] |} in
    if hd false (faults w) then (Threw (PostgresError "statement failed"), issued)
    else
      match Db.exec q (db w) with
      | Some (rows, d) =>
          (Returned rows,
           {| db := d; faults := faults issued; entropy := entropy issued;
              now := now issued; trace := trace issued |})
      | None => (Threw (PostgresError "relation does not exist"), issued)
      end.

(** [console.error(label, e)] *)
Definition console_error (label : string) (e : Exn) : M unit :=
  fun w => (Returned tt, emit (ConsoleError label e) w).

(** [revalidatePath(path)] *)
Definition revalidatePath (path : string) : M unit :=
  fun w => (Returned tt, emit (RevalidatePath path) w).

(** [redirect(url)] never returns: it throws the framework's redirect error. *)
Definition redirect {A : Type} (url : string) : M A :=
  throw (RedirectError url).

(** [str.split('T')[0]] *)
Fixpoint before_T (s : string) : string :=
  match s with
  | EmptyString => EmptyString
  | String c r => if Ascii.eqb c "T" then EmptyString else String c (before_T r)
  end.

(** [new Date().toISOString().split('T')[0]] *)
Definition current_date : M string :=
  fun w => (Returned (before_T (now w)), w).

(** ** The handlers *)

Section Handlers.

(** The library functions the handlers call and this development does not
    look into: zod's email pattern, [bcrypt.hash] (a function of the data,
    the cost and the entropy its salt is drawn from), and [signIn] of the
    authentication library, an arbitrary action. *)
Variable email_pattern : string -> bool.
Variable bcrypt_hash : string -> nat -> nat -> string.
Variable signIn : string -> FormData -> M unit.

(** [await bcrypt.hash(data, rounds)] *)
Definition bcrypt_hash_async (data : string) (rounds : nat) : M string :=
  fun w =>
    (Returned (bcrypt_hash data rounds (entropy w)),
     {| db := db w; faults := faults w; entropy := S (entropy w); now := now w;
        trace := trace w ++ [BcryptHash data rounds] |}).

(** *** actions.ts *)

(** [signup]  (actions.ts 29-85) *)
Definition signup (prevState : SignupState) (formData : FormData)
  : M SignupState :=
  let validatedFields :=
    SignupSchema_safeParse email_pattern
      {| in_name := get "name" formData;
         in_email := get "email" formData;
         in_password := get "password" formData |} in
  match validatedFields with
  | Zod.Failure fieldErrors =>
      ret {| errors := Some fieldErrors; message := Some "Invalid fields." |}
  | Zod.Success data =>
      let name := name data in
      let email := email data in
      let password := password data in
      try_catch
        (existingUsername <- sql (Db.SelectNameFromUsers name) ;;
         if Nat.ltb 0 (length existingUsername) then
           ret {| errors := None;
                  message := Some "User already exists with this name." |}
         else
           existingEmail <- sql (Db.SelectEmailFromUsers email) ;;
           if Nat.ltb 0 (length existingEmail) then
             ret {| errors := None;
                    message := Some "User already exists with this email." |}
           else
             hashedPassword <- bcrypt_hash_async password 10 ;;
             sql (Db.InsertUsersNameEmailPassword name email hashedPassword) ;;
             redirect "/login")
        (fun _error =>
           console_error "Signup Error:" _error ;;
           ret {| errors := None;
                  message := Some "Database Error: Failed to create user." |})
  end.

(** [createInvoice]  (actions.ts 115-152).  The [try] statement either
    returns from the handler ([Some]) or falls through ([None]). *)
Definition createInvoice (prevState : State) (formData : FormData) : M State :=
  let validatedFields :=
    CreateInvoice_safeParse
      {| in_customerId := get "customerId" formData;
         in_amount := get "amount" formData;
         in_status := get "status" formData |} in
  match validatedFields with
  | Zod.Failure fieldErrors =>
      ret {| st_errors := Some fieldErrors;
             st_message := Some "Missing Fields. Failed to Create invoice." |}
  | Zod.Success data =>
      let customerId := customerId data in
      let amount := amount data in
      let status := status data in
      let amountInCents := (amount * 100)%float in
      date <- current_date ;;
      returned <-
        try_catch
          (sql (Db.InsertInvoices customerId amountInCents status date) ;;
           ret None)
          (fun error =>
             console_error "Error:" error ;;
             ret (Some {| st_errors := None;
                          st_message :=
                            Some "Database Error: Failed to Create Invoice." |})) ;;
      match returned with
      | Some state => ret state
      | None =>
          revalidatePath "/dashboard/invoices" ;;
          redirect "/dashboard/invoices"
      end
  end.

(** [updateInvoice]  (actions.ts 154-189) *)
Definition updateInvoice (id : string) (prevState : State) (formData : FormData)
  : M State :=
  let validatedFields :=
    Updateinvoice_safeParse
      {| in_customerId := get "custmerId" formData;
         in_amount := get "amount" formData;
         in_status := get "status" formData |} in
  match validatedFields with
  | Zod.Failure fieldErrors =>
      ret {| st_errors := Some fieldErrors;
             st_message := Some "Missing Fields. Failed to Update Invoice." |}
  | Zod.Success data =>
      let customerId := customerId data in
      let amount := amount data in
      let status := status data in
      let amountInCents := (amount * 100)%float in
      returned <-
        try_catch
          (sql (Db.UpdateInvoice customerId amountInCents status id) ;;
           ret None)
          (fun error =>
             ret (Some {| st_errors := None;
                          st_message :=
                            Some "Database Error: Failed to Update Invoice" |})) ;;
      match returned with
      | Some state => ret state
      | None =>
          revalidatePath "/dashboard/invoices" ;;
          redirect "/dashboard/invoices"
      end
  end.

(** [deleteInvoice]  (actions.ts 191-197) *)
Definition deleteInvoice (id : string) : M unit :=
  throw (A := unit) (Error "Failed to Delete Invoice") ;;
  sql (Db.DeleteFromInvoices id) ;;
  revalidatePath "/dashboard/invoices".

(** [authenticate]  (actions.ts 199-216); [None] is [undefined]. *)
Definition authenticate (prevState : option string) (formData : FormData)
  : M (option string) :=
  try_catch
    (signIn "credentials" formData ;;
     ret None)
    (fun error =>
       match error with
       | AuthError type =>
           if String.eqb type "CredentialsSignin"
           then ret (Some "Invalid credentials")
           else ret (Some "Something went wrong")
       | _ => throw error
       end).

End Handlers.

(** *** actions/signup.ts *)

Module SignupTs.

(** The object handed to [safeParse] here has the two keys only. *)
Record SignupInput : Type := {
  in_email : JsVal;
  in_password : JsVal
}.

Section Handlers.

Variable email_pattern : string -> bool.
Variable bcrypt_hash : string -> nat -> nat -> string.

(** [SignupSchema]  (actions/signup.ts 11-14): no [name] key. *)
Definition SignupSchema_safeParse (i : SignupInput)
  : Zod.SafeParse (string * string) SignupErrors :=
  let e := Zod.string_email email_pattern "Invalid email address" (in_email i) in
  let p := Zod.string_min 6 "Password must be at least 6 characters"
             (in_password i) in
  match e, p with
  | Zod.Valid e', Zod.Valid p' => Zod.Success (e', p')
  | _, _ =>
      Zod.Failure {| err_name := None;
                     err_email := Zod.issues e;
                     err_password := Zod.issues p |}
  end.

(** [signup]  (actions/signup.ts 16-60) *)
Definition signup (prevState : SignupState) (formData : FormData)
  : M SignupState :=
  let validatedFields :=
    SignupSchema_safeParse
      {| in_email := get "email" formData;
         in_password := get "password" formData |} in
  match validatedFields with
  | Zod.Failure fieldErrors =>
      ret {| errors := Some fieldErrors; message := Some "Invalid fields." |}
  | Zod.Success (email, password) =>
      try_catch
        (existingUser <- sql (Db.SelectEmailFromUsers email) ;;
         if Nat.ltb 0 (length existingUser) then
           ret {| errors := None;
                  message := Some "User already exists with this email." |}
         else
           hashedPassword <- bcrypt_hash_async bcrypt_hash password 10 ;;
           sql (Db.InsertUsersEmailPassword email hashedPassword) ;;
           ret {| errors := None; message := Some "User created successfully!" |})
        (fun error =>
           console_error "Signup Error:" error ;;
           ret {| errors := None;
                  message := Some "Database Error: Failed to create user." |})
  end.

End Handlers.

End SignupTs.

(** ** Stand-ins for the libraries, to run the handlers on concrete input *)

Module Stub.

(** An email pattern: something, an [@], something. *)
Definition email_pattern (s : string) : bool :=
  match index 0 "@" s with
  | Some (S _) => Nat.ltb (S (S 0)) (String.length s)
  | _ => false
  end.

(** A hash that shows its inputs: the usual prefix, the cost, the seed of the
    salt, and the data. *)
Definition hash (data : string) (rounds seed : nat) : string :=
  "$2b$" ++ NilEmpty.string_of_uint (Nat.to_uint rounds) ++ "$"
    ++ NilEmpty.string_of_uint (Nat.to_uint seed) ++ "$" ++ data.

Fixpoint ends_with (suffix s : string) : bool :=
  String.eqb s suffix
  || match s with
     | String _ r => ends_with suffix r
     | EmptyString => false
     end.

(** [h] verifies against [data] when it ends with [data] and is not [data]. *)
Definition compare (data h : string) : bool :=
  negb (String.eqb h data) && ends_with data h.

(** A sign-in that always rejects the credentials. *)
Definition signIn_rejects (provider : string) (formData : FormData) : M unit :=
  throw (AuthError "CredentialsSignin").

(** A sign-in that fails inside the provider. *)
Definition signIn_breaks (provider : string) (formData : FormData) : M unit :=
  throw (AuthError "CallbackRouteError").

(** A sign-in that succeeds, which the library signals by a redirect. *)
Definition signIn_redirects (provider : string) (formData : FormData) : M unit :=
  redirect "/dashboard".

Definition world : World :=
  {| db := Db.empty; faults := []; entropy := 0;
     now := "2024-05-06T07:08:09.000Z"; trace := [] |}.

(** The same world after alice has signed up. *)
Definition world_with_alice : World :=
  {| db := {| Db.users := [{| Db.user_name := Some "alice";
                              Db.user_email := "alice@example.com";
                              Db.user_password := "$2b$10$0$secret" |}];
              Db.invoices := [];
              Db.serial := 0 |};
     faults := []; entropy := 1;
     now := "2024-05-06T07:08:09.000Z"; trace := [] |}.

Definition alice_signs_up : FormData :=
  [("name", Text "alice"); ("email", Text "alice@example.com");
   ("password", Text "secret")].

Definition bad_signup : FormData :=
  [("name", Text "bob"); ("email", Text "bob.example.com");
   ("password", Text "secr")].

Definition invoice_12_50 : FormData :=
  [("customerId", Text "c1"); ("amount", Text "12.50");
   ("status", Text "pending")].

Definition bad_invoice : FormData :=
  [("amount", Text "-3"); ("status", Text "draft")].

Definition no_signup_state : SignupState := {| errors := None; message := None |}.
Definition no_state : State := {| st_errors := None; st_message := None |}.

End Stub.

(** ** Vocabulary of the statements *)

(** The objects the handlers hand to [safeParse]. *)
Definition signup_fields (formData : FormData) : SignupInput :=
  {| in_name := get "name" formData;
     in_email := get "email" formData;
     in_password := get "password" formData |}.

Definition signup_ts_fields (formData : FormData) : SignupTs.SignupInput :=
  {| SignupTs.in_email := get "email" formData;
     SignupTs.in_password := get "password" formData |}.

Definition create_fields (formData : FormData) : InvoiceInput :=
  {| in_customerId := get "customerId" formData;
     in_amount := get "amount" formData;
     in_status := get "status" formData |}.

Definition update_fields (formData : FormData) : InvoiceInput :=
  {| in_customerId := get "custmerId" formData;
     in_amount := get "amount" formData;
     in_status := get "status" formData |}.

(** The field holds no string that the email pattern accepts. *)
Definition invalid_email (pattern : string -> bool) (v : JsVal) : Prop :=
  forall s, v = JStr s -> pattern s = false.

(** The field holds a string of fewer than six characters. *)
Definition short_password (v : JsVal) : Prop :=
  exists p, v = JStr p /\ String.length p < 6.

(** The amount, once coerced, is a number at most zero. *)
Definition amount_not_positive (v : JsVal) : Prop :=
  PrimFloat.leb (Number.of_value v) PrimFloat.zero = true.

(** The field is none of the two statuses. *)
Definition status_outside_enum (v : JsVal) : Prop :=
  v <> JStr "pending" /\ v <> JStr "paid".

(** Some row of [users] carries this name, this email. *)
Definition name_taken (n : string) (d : Db.t) : bool :=
  existsb (Db.name_is n) (Db.users d).

Definition email_taken (e : string) (d : Db.t) : bool :=
  existsb (Db.email_is e) (Db.users d).

(** The store with one more row at the end of [users]. *)
Definition with_user (d : Db.t) (r : Db.UserRow) : Db.t :=
  {| Db.users := Db.users d ++ [r];
     Db.invoices := Db.invoices d;
     Db.serial := Db.serial d |}.

Definition inserts (evs : list Event) : list Db.Stmt :=
  filter Db.is_insert (statements evs).

Definition updates (evs : list Event) : list Db.Stmt :=
  filter Db.is_update (statements evs).

(** The events of a run that took the world from [w] to [w']. *)
Definition since (w w' : World) : list Event :=
  skipn (length (trace w)) (trace w').

(** The store with one more row at the end of [invoices]. *)
Definition with_invoice (d : Db.t) (c : string) (a : float) (s dt : string)
  : Db.t :=
  {| Db.users := Db.users d;
     Db.invoices := Db.invoices d ++ [{| Db.invoice_id := Db.serial d;
                                         Db.invoice_customer_id := c;
                                         Db.invoice_amount := a;
                                         Db.invoice_status := s;
                                         Db.invoice_date := dt |}];
     Db.serial := S (Db.serial d) |}.

Definition is_status (s : string) : Prop := s = "pending" \/ s = "paid".

(** The status a statement writes into [invoices], if it writes one. *)
Definition written_status (q : Db.Stmt) : option string :=
  match q with
  | Db.InsertInvoices _ _ s _ => Some s
  | _ => None
  end.

(** Whatever the action returns, when it returns, satisfies [P]. *)
Definition returns_only {A : Type} (P : A -> Prop) (m : M A) : Prop :=
  forall w a w', m w = (Returned a, w') -> P a.

(** The object has a ['message'] key and no ['errors'] key. *)
Definition message_only (st : SignupState) : Prop :=
  errors st = None /\ message st <> None.

(** ** Vocabulary of the further statements *)

(** The world [w] after a run that left the store [d], the fault script
    [fs] and the entropy [n], and added the events [evs]. *)
Definition after (w : World) (d : Db.t) (fs : list bool) (n : nat)
    (evs : list Event) : World :=
  {| db := d; faults := fs; entropy := n; now := now w;
     trace := (trace w ++ evs)%list |}.

Definition database_error : SignupState :=
  {| errors := None; message := Some "Database Error: Failed to create user." |}.

Definition created : SignupState :=
  {| errors := None; message := Some "User created successfully!" |}.

(** What the signup handlers log when a statement fails. *)
Definition statement_failed : Event :=
  ConsoleError "Signup Error:" (PostgresError "statement failed").

(** The emails, and the names that are not NULL, of the rows of [users]. *)
Definition emails (d : Db.t) : list string := map Db.user_email (Db.users d).

Definition names (d : Db.t) : list string :=
  flat_map (fun r => match Db.user_name r with
                     | Some n => [n]
                     | None => []
                     end) (Db.users d).

(** The fault script answers one of the statements [signup] of actions.ts
    issues by a failure: the first, or, the name being free, the second, or,
    the email being free too, the third. *)
Definition signup_hits_a_fault (name_free email_free : bool) (fs : list bool)
  : bool :=
  hd false fs
  || name_free && (hd false (tl fs) || email_free && hd false (tl (tl fs))).

(** The same for [signup] of actions/signup.ts, which issues two. *)
Definition signup_ts_hits_a_fault (email_free : bool) (fs : list bool) : bool :=
  hd false fs || email_free && hd false (tl fs).

(** The paths revalidated, and what was logged, among the events. *)
Fixpoint revalidated (evs : list Event) : list string :=
  match evs with
  | [] => []
  | RevalidatePath p :: rest => p :: revalidated rest
  | _ :: rest => revalidated rest
  end.

Fixpoint logged (evs : list Event) : list (string * Exn) :=
  match evs with
  | [] => []
  | ConsoleError l e :: rest => (l, e) :: logged rest
  | _ :: rest => logged rest
  end.

(** The string has no [T] in it. *)
Fixpoint no_T (s : string) : bool :=
  match s with
  | EmptyString => true
  | String c r => negb (Ascii.eqb c "T") && no_T r
  end.

Definition is_string (v : JsVal) : bool :=
  match v with
  | JStr _ => true
  | _ => false
  end.

(** [Number(v)] is a number above zero. *)
Definition positive_number (v : JsVal) : bool :=
  negb (PrimFloat.is_nan (Number.of_value v))
  && negb (PrimFloat.leb (Number.of_value v) PrimFloat.zero).

Definition is_status_value (v : JsVal) : bool :=
  match v with
  | JStr s => String.eqb s "pending" || String.eqb s "paid"
  | _ => false
  end.

(** A string of at least [n] characters; a string the pattern accepts. *)
Definition string_of_at_least (n : nat) (v : JsVal) : bool :=
  match v with
  | JStr s => Nat.leb n (String.length s)
  | _ => false
  end.

Definition matching_string (pattern : string -> bool) (v : JsVal) : bool :=
  match v with
  | JStr s => pattern s
  | _ => false
  end.

(** The key is present in a [fieldErrors] object. *)
Definition reported (o : option (list string)) : bool :=
  match o with
  | Some _ => true
  | None => false
  end.

(** Further worlds and forms to run the handlers on. *)
Module Scenario.

Definition world_failing : World :=
  {| db := Db.empty; faults := [true]; entropy := 0;
     now := "2024-05-06T07:08:09.000Z"; trace := [] |}.

Definition blank_invoice : FormData := [("customerId", Text "c1")].

Definition blank_name : FormData :=
  [("name", Text ""); ("email", Text "carol@example.com");
   ("password", Text "secret")].

Definition misspelled_invoice : FormData :=
  [("custmerId", Text "c1"); ("amount", Text "12.50"); ("status", Text "paid")].

Definition alice_by_email : FormData :=
  [("email", Text "alice@example.com"); ("password", Text "hunter22")].

Definition signIn_returns (provider : string) (formData : FormData) : M unit :=
  ret tt.

End Scenario.

Definition alice_data : SignupData :=
  {| name := "alice"; email := "alice@example.com"; password := "secret" |}.

(** ** Facts about the model *)

Lemma length_append (a b : string) :
  String.length (a ++ b) = String.length a + String.length b.
Proof.
  induction a as [| c a IH]; simpl; [reflexivity | now rewrite IH].
Qed.

Lemma append_assoc (a b c : string) : (a ++ b) ++ c = a ++ (b ++ c).
Proof.
  induction a as [| x a IH]; simpl; [reflexivity | now rewrite IH].
Qed.

Lemma stub_hash_differs (data : string) (rounds seed : nat) :
  Stub.hash data rounds seed <> data.
Proof.
  intro H. apply (f_equal String.length) in H.
  unfold Stub.hash in H. simpl in H.
  rewrite !length_append in H. simpl in H.
  rewrite !length_append in H. simpl in H. lia.
Qed.

Lemma stub_ends_with_append (p d : string) : Stub.ends_with d (p ++ d) = true.
Proof.
  induction p as [| c p IH]; simpl.
  - destruct d; simpl; [reflexivity |].
    rewrite Ascii.eqb_refl, String.eqb_refl. reflexivity.
  - rewrite IH. apply orb_true_r.
Qed.

Lemma stub_compare_hash (data : string) (rounds seed : nat) :
  Stub.compare data (Stub.hash data rounds seed) = true.
Proof.
  unfold Stub.compare. apply andb_true_iff. split.
  - apply negb_true_iff, String.eqb_neq, stub_hash_differs.
  - unfold Stub.hash. rewrite <- !append_assoc. apply stub_ends_with_append.
Qed.

(** Reading a key that the form does not carry gives [null]. *)
Lemma get_missing (key : string) (formData : FormData) :
  has_key key formData = false -> get key formData = JNull.
Proof.
  induction formData as [| [k v] rest IH]; simpl; [reflexivity |].
  intro H. apply orb_false_iff in H. destruct H as [Hk Hrest].
  rewrite Hk. exact (IH Hrest).
Qed.

(** [formData.get] never answers [undefined]. *)
Lemma get_defined (key : string) (formData : FormData) :
  get key formData <> JUndefined.
Proof.
  induction formData as [| [k v] rest IH]; simpl; [discriminate |].
  destruct (String.eqb k key); [destruct v; discriminate | exact IH].
Qed.

(** While the database is available, a statement is answered by the store. *)
Lemma db_available_hd (w : World) : db_available w -> hd false (faults w) = false.
Proof.
  unfold db_available. destruct (faults w) as [| b l]; simpl; [reflexivity |].
  destruct b; simpl; [discriminate | reflexivity].
Qed.

Lemma forallb_negb_tl (l : list bool) :
  forallb negb l = true -> forallb negb (tl l) = true.
Proof.
  destruct l as [| b l]; simpl; [reflexivity |].
  intro H. apply andb_true_iff in H. exact (proj2 H).
Qed.

Lemma sql_available (q : Db.Stmt) (w : World) :
  db_available w ->
  sql q w =
  match Db.exec q (db w) with
  | Some (rows, d) =>
      (Returned rows,
       {| db := d; faults := tl (faults w); entropy := entropy w; now := now w;
          trace := trace w ++ [Sql q] |})
  | None =>
      (Threw (PostgresError "relation does not exist"),
       {| db := db w; faults := tl (faults w); entropy := entropy w;
          now := now w; trace := trace w ++ [Sql q] |})
  end.
Proof.
  intro H. unfold sql. rewrite (db_available_hd w H).
  destruct (Db.exec q (db w)) as [[rows d] |]; reflexivity.
Qed.

Lemma skipn_length_app {A : Type} (old new : list A) :
  skipn (length old) (old ++ new) = new.
Proof.
  induction old as [| x old IH]; simpl; [reflexivity | exact IH].
Qed.

Lemma skipn_length_self {A : Type} (old : list A) :
  skipn (length old) old = [].
Proof.
  induction old as [| x old IH]; simpl; [reflexivity | exact IH].
Qed.

(** ** deleteInvoice *)

(** C6: for every id, [deleteInvoice] raises the error
    'Failed to Delete Invoice' and leaves the world as it found it: no
    statement reaches the database and no path is revalidated, whatever the
    DELETE and the revalidation after the [throw] would have done. *)
Theorem deleteInvoice_always_throws (id : string) (w : World) :
  deleteInvoice id w = (Threw (Error "Failed to Delete Invoice"), w).
Proof. reflexivity. Qed.

(** ** authenticate *)

Section Authenticate.

Variable signIn : string -> FormData -> M unit.

(** C8: when [signIn] throws an [AuthError] of type 'CredentialsSignin' the
    handler returns 'Invalid credentials'; when it throws an [AuthError] of
    any other type it returns 'Something went wrong'; when it throws an
    error that is not an [AuthError] the handler throws that same error; in
    each case the world is the one [signIn] left. *)
Theorem authenticate_maps_errors
    (prevState : option string) (formData : FormData) (w w' : World) (e : Exn) :
  signIn "credentials" formData w = (Threw e, w') ->
  (e = AuthError "CredentialsSignin" ->
   authenticate signIn prevState formData w
   = (Returned (Some "Invalid credentials"), w'))
  /\ (forall type, e = AuthError type -> type <> "CredentialsSignin" ->
      authenticate signIn prevState formData w
      = (Returned (Some "Something went wrong"), w'))
  /\ ((forall type, e <> AuthError type) ->
      authenticate signIn prevState formData w = (Threw e, w')).
Proof.
  intro Hthrow. unfold authenticate, try_catch, bind. rewrite Hthrow.
  repeat split.
  - intros ->. reflexivity.
  - intros type -> Hne. apply String.eqb_neq in Hne. rewrite Hne. reflexivity.
  - intro Hother. destruct e; try reflexivity.
    exfalso. exact (Hother type eq_refl).
Qed.

End Authenticate.

Lemma authenticate_maps_errors_witness :
  (Stub.signIn_rejects "credentials" [] Stub.world
   = (Threw (AuthError "CredentialsSignin"), Stub.world)
   /\ authenticate Stub.signIn_rejects None [] Stub.world
      = (Returned (Some "Invalid credentials"), Stub.world))
  /\ (Stub.signIn_breaks "credentials" [] Stub.world
      = (Threw (AuthError "CallbackRouteError"), Stub.world)
      /\ authenticate Stub.signIn_breaks None [] Stub.world
         = (Returned (Some "Something went wrong"), Stub.world))
  /\ (Stub.signIn_redirects "credentials" [] Stub.world
      = (Threw (RedirectError "/dashboard"), Stub.world)
      /\ authenticate Stub.signIn_redirects None [] Stub.world
         = (Threw (RedirectError "/dashboard"), Stub.world)).
Proof.
  split; [| split]; (split; [reflexivity |]).
  - exact (proj1 (authenticate_maps_errors Stub.signIn_rejects None []
                    Stub.world Stub.world (AuthError "CredentialsSignin")
                    eq_refl) eq_refl).
  - apply (proj1 (proj2 (authenticate_maps_errors Stub.signIn_breaks None []
                           Stub.world Stub.world (AuthError "CallbackRouteError")
                           eq_refl)) "CallbackRouteError" eq_refl).
    discriminate.
  - apply (proj2 (proj2 (authenticate_maps_errors Stub.signIn_redirects None []
                           Stub.world Stub.world (RedirectError "/dashboard")
                           eq_refl))).
    discriminate.
Defined.

(** ** Validation *)

(** A float that compares below another one is a number. *)
Lemma leb_true_not_nan (x y : float) :
  PrimFloat.leb x y = true -> PrimFloat.is_nan x = false.
Proof.
  unfold PrimFloat.is_nan. rewrite FloatAxioms.leb_spec, FloatAxioms.eqb_spec.
  unfold SFleb, SFeqb.
  destruct (Prim2SF x) as [s | s | | s m e]; simpl.
  - reflexivity.
  - destruct s; reflexivity.
  - discriminate.
  - intros _. destruct s; rewrite Z.compare_refl, Pos.compare_cont_refl;
      reflexivity.
Qed.

Section Validation.

Variable email_pattern : string -> bool.
Variable bcrypt_hash : string -> nat -> nat -> string.

Lemma string_email_rejects (msg : string) (v : JsVal) :
  invalid_email email_pattern v ->
  exists ms, Zod.string_email email_pattern msg v = Zod.Invalid ms.
Proof.
  intro H. unfold Zod.string_email.
  destruct v as [| | s |]; simpl; eauto.
  rewrite (H s eq_refl). eauto.
Qed.

Lemma string_min_rejects (n : nat) (msg : string) (v : JsVal) (p : string) :
  v = JStr p -> String.length p < n ->
  Zod.string_min n msg v = Zod.Invalid [msg].
Proof.
  intros -> Hlen. unfold Zod.string_min. simpl.
  apply Nat.ltb_lt in Hlen. rewrite Hlen. reflexivity.
Qed.

Lemma coerce_number_gt_rejects (msg : string) (v : JsVal) :
  amount_not_positive v ->
  Zod.coerce_number_gt PrimFloat.zero msg v = Zod.Invalid [msg].
Proof.
  unfold amount_not_positive, Zod.coerce_number_gt. intro H.
  rewrite (leb_true_not_nan _ _ H), H. reflexivity.
Qed.

Lemma enum_accepts_only (custom : option string) (v : JsVal) (s : string) :
  Zod.enum ["pending"; "paid"] custom v = Zod.Valid s ->
  v = JStr s /\ (s = "pending" \/ s = "paid").
Proof.
  unfold Zod.enum. destruct v as [| | t |]; try discriminate.
  simpl existsb. rewrite orb_false_r.
  destruct (String.eqb t "pending") eqn:E1.
  - simpl. intro H. injection H as <-. apply String.eqb_eq in E1. auto.
  - destruct (String.eqb t "paid") eqn:E2; simpl; [| discriminate].
    intro H. injection H as <-. apply String.eqb_eq in E2. auto.
Qed.

Lemma enum_rejects (custom : option string) (v : JsVal) :
  status_outside_enum v ->
  exists ms, Zod.enum ["pending"; "paid"] custom v = Zod.Invalid ms.
Proof.
  intros [H1 H2].
  destruct (Zod.enum ["pending"; "paid"] custom v) as [s | ms] eqn:E; eauto.
  apply enum_accepts_only in E. destruct E as [-> [-> | ->]]; contradiction.
Qed.

(** [safeParse] fails as soon as one field has issues, and then lists the
    issues of every field. *)
Lemma SignupSchema_fails (i : SignupInput) :
  Zod.issues (Zod.string_min 1 "Name is required" (in_name i)) <> None
  \/ Zod.issues (Zod.string_email email_pattern "Invalid email address"
                   (in_email i)) <> None
  \/ Zod.issues (Zod.string_min 6 "Password must be at least 6 characters long"
                   (in_password i)) <> None ->
  SignupSchema_safeParse email_pattern i
  = Zod.Failure
      {| err_name := Zod.issues (Zod.string_min 1 "Name is required" (in_name i));
         err_email := Zod.issues (Zod.string_email email_pattern
                                    "Invalid email address" (in_email i));
         err_password := Zod.issues (Zod.string_min 6
                                       "Password must be at least 6 characters long"
                                       (in_password i)) |}.
Proof.
  unfold SignupSchema_safeParse.
  destruct (Zod.string_min 1 _ _), (Zod.string_email _ _ _),
    (Zod.string_min 6 _ _); simpl; try reflexivity.
  intros [H | [H | H]]; contradiction.
Qed.

Lemma SignupTs_SignupSchema_fails (i : SignupTs.SignupInput) :
  Zod.issues (Zod.string_email email_pattern "Invalid email address"
                (SignupTs.in_email i)) <> None
  \/ Zod.issues (Zod.string_min 6 "Password must be at least 6 characters"
                   (SignupTs.in_password i)) <> None ->
  SignupTs.SignupSchema_safeParse email_pattern i
  = Zod.Failure
      {| err_name := None;
         err_email := Zod.issues (Zod.string_email email_pattern
                                    "Invalid email address"
                                    (SignupTs.in_email i));
         err_password := Zod.issues (Zod.string_min 6
                                       "Password must be at least 6 characters"
                                       (SignupTs.in_password i)) |}.
Proof.
  unfold SignupTs.SignupSchema_safeParse.
  destruct (Zod.string_email _ _ _), (Zod.string_min 6 _ _); simpl;
    try reflexivity.
  intros [H | H]; contradiction.
Qed.

Lemma FormSchema_fails (i : InvoiceInput) :
  Zod.issues (Zod.string_ (Some "Please select a customer") (in_customerId i))
    <> None
  \/ Zod.issues (Zod.coerce_number_gt PrimFloat.zero
                   "Please enter an amount greater than $0" (in_amount i))
       <> None
  \/ Zod.issues (Zod.enum ["pending"; "paid"]
                   (Some "Please select an invoice status") (in_status i))
       <> None ->
  FormSchema_omit_id_data_safeParse i
  = Zod.Failure
      {| err_customerId :=
           Zod.issues (Zod.string_ (Some "Please select a customer")
                         (in_customerId i));
         err_amount :=
           Zod.issues (Zod.coerce_number_gt PrimFloat.zero
                         "Please enter an amount greater than $0" (in_amount i));
         err_status :=
           Zod.issues (Zod.enum ["pending"; "paid"]
                         (Some "Please select an invoice status")
                         (in_status i)) |}.
Proof.
  unfold FormSchema_omit_id_data_safeParse.
  destruct (Zod.string_ _ _), (Zod.coerce_number_gt _ _ _), (Zod.enum _ _ _);
    simpl; try reflexivity.
  intros [H | [H | H]]; contradiction.
Qed.

(** What a successful parse of the signup schemas says of the fields read. *)
Lemma SignupSchema_succeeds (i : SignupInput) (data : SignupData) :
  SignupSchema_safeParse email_pattern i = Zod.Success data ->
  in_name i = JStr (name data)
  /\ in_email i = JStr (email data)
  /\ in_password i = JStr (password data).
Proof.
  unfold SignupSchema_safeParse, Zod.string_min, Zod.string_email, Zod.string_.
  destruct (in_name i) as [| | n |]; destruct (in_email i) as [| | e |];
    destruct (in_password i) as [| | p |]; simpl;
    repeat match goal with
           | |- context [if ?b then _ else _] => destruct b
           end;
    try discriminate.
  intro H. injection H as <-. auto.
Qed.

Lemma SignupTs_SignupSchema_succeeds (i : SignupTs.SignupInput)
    (email password : string) :
  SignupTs.SignupSchema_safeParse email_pattern i
    = Zod.Success (email, password) ->
  SignupTs.in_email i = JStr email /\ SignupTs.in_password i = JStr password.
Proof.
  unfold SignupTs.SignupSchema_safeParse, Zod.string_min, Zod.string_email,
    Zod.string_.
  destruct (SignupTs.in_email i) as [| | e |];
    destruct (SignupTs.in_password i) as [| | p |]; simpl;
    repeat match goal with
           | |- context [if ?b then _ else _] => destruct b
           end;
    try discriminate.
  intro H. injection H as <- <-. auto.
Qed.

End Validation.

Section Rejection.

Variable email_pattern : string -> bool.
Variable bcrypt_hash : string -> nat -> nat -> string.

(** C3: a signup submission with an invalid email or with a password of
    fewer than 6 characters (either variant), and an invoice-create
    submission with an amount at most 0, without a customerId, or with a
    status outside the enum, makes the handler return the field-level error
    map (with an entry for the offending field) together with its generic
    message, and leaves the world untouched: no database statement is
    issued, nor anything else done. *)
Theorem invalid_submission_is_rejected_before_the_database :
  (forall prevState formData w,
      invalid_email email_pattern (get "email" formData)
      \/ short_password (get "password" formData) ->
      exists fieldErrors,
        signup email_pattern bcrypt_hash prevState formData w
        = (Returned {| errors := Some fieldErrors;
                       message := Some "Invalid fields." |}, w)
        /\ (invalid_email email_pattern (get "email" formData) ->
            err_email fieldErrors <> None)
        /\ (short_password (get "password" formData) ->
            err_password fieldErrors
            = Some ["Password must be at least 6 characters long"]))
  /\ (forall prevState formData w,
         invalid_email email_pattern (get "email" formData)
         \/ short_password (get "password" formData) ->
         exists fieldErrors,
           SignupTs.signup email_pattern bcrypt_hash prevState formData w
           = (Returned {| errors := Some fieldErrors;
                          message := Some "Invalid fields." |}, w)
           /\ (invalid_email email_pattern (get "email" formData) ->
               err_email fieldErrors <> None)
           /\ (short_password (get "password" formData) ->
               err_password fieldErrors
               = Some ["Password must be at least 6 characters"]))
  /\ (forall prevState formData w,
         amount_not_positive (get "amount" formData)
         \/ has_key "customerId" formData = false
         \/ status_outside_enum (get "status" formData) ->
         exists fieldErrors,
           createInvoice prevState formData w
           = (Returned {| st_errors := Some fieldErrors;
                          st_message :=
                            Some "Missing Fields. Failed to Create invoice." |},
              w)
           /\ (amount_not_positive (get "amount" formData) ->
               err_amount fieldErrors
               = Some ["Please enter an amount greater than $0"])
           /\ (has_key "customerId" formData = false ->
               err_customerId fieldErrors = Some ["Please select a customer"])
           /\ (status_outside_enum (get "status" formData) ->
               err_status fieldErrors <> None)).
Proof.
  split; [| split].
  - intros prevState formData w H.
    eexists. split; [| split].
    + unfold signup. rewrite SignupSchema_fails; [reflexivity |].
      right. simpl. destruct H as [He | [p [Hp Hlen]]].
      * left. destruct (string_email_rejects email_pattern
                          "Invalid email address" _ He) as [ms ->].
        discriminate.
      * right. rewrite (string_min_rejects 6 _ _ p Hp Hlen). discriminate.
    + intro He. simpl.
      destruct (string_email_rejects email_pattern "Invalid email address"
                  _ He) as [ms ->].
      discriminate.
    + intros [p [Hp Hlen]]. simpl.
      rewrite (string_min_rejects 6 _ _ p Hp Hlen). reflexivity.
  - intros prevState formData w H.
    eexists. split; [| split].
    + unfold SignupTs.signup. rewrite SignupTs_SignupSchema_fails;
        [reflexivity |].
      simpl. destruct H as [He | [p [Hp Hlen]]].
      * left. destruct (string_email_rejects email_pattern
                          "Invalid email address" _ He) as [ms ->].
        discriminate.
      * right. rewrite (string_min_rejects 6 _ _ p Hp Hlen). discriminate.
    + intro He. simpl.
      destruct (string_email_rejects email_pattern "Invalid email address"
                  _ He) as [ms ->].
      discriminate.
    + intros [p [Hp Hlen]]. simpl.
      rewrite (string_min_rejects 6 _ _ p Hp Hlen). reflexivity.
  - intros prevState formData w H.
    eexists. split; [| split; [| split]].
    + unfold createInvoice, CreateInvoice_safeParse.
      rewrite FormSchema_fails; [reflexivity |].
      simpl. destruct H as [Ha | [Hc | Hs]].
      * right. left. rewrite (coerce_number_gt_rejects _ _ Ha). discriminate.
      * left. rewrite (get_missing _ _ Hc). discriminate.
      * right. right.
        destruct (enum_rejects (Some "Please select an invoice status") _ Hs)
          as [ms ->].
        discriminate.
    + intro Ha. simpl. rewrite (coerce_number_gt_rejects _ _ Ha). reflexivity.
    + intro Hc. simpl. rewrite (get_missing _ _ Hc). reflexivity.
    + intro Hs. simpl.
      destruct (enum_rejects (Some "Please select an invoice status") _ Hs)
        as [ms ->].
      discriminate.
Qed.

End Rejection.

(** Finishes the run of a handler once its statements have been answered:
    the remaining actions compute, and the trace is brought to the form
    [old ++ new]. *)
Ltac finish_run :=
  unfold ret, throw, redirect, console_error, revalidatePath, current_date,
    emit, bind, try_catch;
  simpl; rewrite <- ?app_assoc; simpl; reflexivity.

(** ** Signup *)

Lemma select_nonempty {A : Type} (f : Db.UserRow -> A) (p : Db.UserRow -> bool)
    (l : list Db.UserRow) :
  Nat.ltb 0 (length (map f (filter p l))) = existsb p l.
Proof.
  induction l as [| r l IH]; simpl; [reflexivity |].
  destruct (p r); simpl; [reflexivity | exact IH].
Qed.

Section Signup.

Variable email_pattern : string -> bool.
Variable bcrypt_hash : string -> nat -> nat -> string.

(** A run of [signup] of actions.ts on a valid submission with a fresh name
    and a fresh email, the database answering. *)
Lemma signup_fresh_run (prevState : SignupState) (formData : FormData)
    (w : World) (data : SignupData) :
  SignupSchema_safeParse email_pattern (signup_fields formData)
    = Zod.Success data ->
  db_available w ->
  name_taken (name data) (db w) = false ->
  email_taken (email data) (db w) = false ->
  signup email_pattern bcrypt_hash prevState formData w
  = (Returned {| errors := None;
                 message := Some "Database Error: Failed to create user." |},
     {| db := with_user (db w)
                {| Db.user_name := Some (name data);
                   Db.user_email := email data;
                   Db.user_password :=
                     bcrypt_hash (password data) 10 (entropy w) |};
        faults := tl (tl (tl (faults w)));
        entropy := S (entropy w);
        now := now w;
        trace := trace w ++
          [Sql (Db.SelectNameFromUsers (name data));
           Sql (Db.SelectEmailFromUsers (email data));
           BcryptHash (password data) 10;
           Sql (Db.InsertUsersNameEmailPassword (name data) (email data)
                  (bcrypt_hash (password data) 10 (entropy w)));
           ConsoleError "Signup Error:" (RedirectError "/login")] |}).
Proof.
  intros Hparse Hup Hname Hemail.
  unfold signup. fold (signup_fields formData). rewrite Hparse.
  unfold try_catch, bind.
  rewrite (sql_available _ w Hup). simpl Db.exec. cbv iota beta.
  rewrite select_nonempty. fold (name_taken (name data) (db w)).
  rewrite Hname.
  rewrite sql_available by (apply forallb_negb_tl; exact Hup).
  simpl Db.exec. cbv iota beta. simpl db.
  rewrite select_nonempty. fold (email_taken (email data) (db w)).
  rewrite Hemail.
  unfold bcrypt_hash_async.
  rewrite sql_available by (do 2 apply forallb_negb_tl; exact Hup).
  unfold with_user. finish_run.
Qed.

(** The same submission when a row already carries the name. *)
Lemma signup_name_taken_run (prevState : SignupState) (formData : FormData)
    (w : World) (data : SignupData) :
  SignupSchema_safeParse email_pattern (signup_fields formData)
    = Zod.Success data ->
  db_available w ->
  name_taken (name data) (db w) = true ->
  signup email_pattern bcrypt_hash prevState formData w
  = (Returned {| errors := None;
                 message := Some "User already exists with this name." |},
     {| db := db w; faults := tl (faults w); entropy := entropy w; now := now w;
        trace := trace w ++ [Sql (Db.SelectNameFromUsers (name data))] |}).
Proof.
  intros Hparse Hup Hname.
  unfold signup. fold (signup_fields formData). rewrite Hparse.
  unfold try_catch, bind.
  rewrite (sql_available _ w Hup). simpl Db.exec. cbv iota beta.
  rewrite select_nonempty. fold (name_taken (name data) (db w)).
  rewrite Hname. reflexivity.
Qed.

(** The same submission when the name is fresh and a row carries the email. *)
Lemma signup_email_taken_run (prevState : SignupState) (formData : FormData)
    (w : World) (data : SignupData) :
  SignupSchema_safeParse email_pattern (signup_fields formData)
    = Zod.Success data ->
  db_available w ->
  name_taken (name data) (db w) = false ->
  email_taken (email data) (db w) = true ->
  signup email_pattern bcrypt_hash prevState formData w
  = (Returned {| errors := None;
                 message := Some "User already exists with this email." |},
     {| db := db w; faults := tl (tl (faults w)); entropy := entropy w;
        now := now w;
        trace := trace w ++ [Sql (Db.SelectNameFromUsers (name data));
                             Sql (Db.SelectEmailFromUsers (email data))] |}).
Proof.
  intros Hparse Hup Hname Hemail.
  unfold signup. fold (signup_fields formData). rewrite Hparse.
  unfold try_catch, bind.
  rewrite (sql_available _ w Hup). simpl Db.exec. cbv iota beta.
  rewrite select_nonempty. fold (name_taken (name data) (db w)).
  rewrite Hname.
  rewrite sql_available by (apply forallb_negb_tl; exact Hup).
  simpl Db.exec. cbv iota beta. simpl db.
  rewrite select_nonempty. fold (email_taken (email data) (db w)).
  rewrite Hemail. finish_run.
Qed.

(** A run of [signup] of actions/signup.ts on a valid submission with a
    fresh email, the database answering. *)
Lemma signup_ts_fresh_run (prevState : SignupState) (formData : FormData)
    (w : World) (email password : string) :
  SignupTs.SignupSchema_safeParse email_pattern (signup_ts_fields formData)
    = Zod.Success (email, password) ->
  db_available w ->
  email_taken email (db w) = false ->
  SignupTs.signup email_pattern bcrypt_hash prevState formData w
  = (Returned {| errors := None; message := Some "User created successfully!" |},
     {| db := with_user (db w)
                {| Db.user_name := None;
                   Db.user_email := email;
                   Db.user_password := bcrypt_hash password 10 (entropy w) |};
        faults := tl (tl (faults w));
        entropy := S (entropy w);
        now := now w;
        trace := trace w ++
          [Sql (Db.SelectEmailFromUsers email);
           BcryptHash password 10;
           Sql (Db.InsertUsersEmailPassword email
                  (bcrypt_hash password 10 (entropy w)))] |}).
Proof.
  intros Hparse Hup Hemail.
  unfold SignupTs.signup. fold (signup_ts_fields formData). rewrite Hparse.
  unfold try_catch, bind.
  rewrite (sql_available _ w Hup). simpl Db.exec. cbv iota beta.
  rewrite select_nonempty. fold (email_taken email (db w)).
  rewrite Hemail.
  unfold bcrypt_hash_async.
  rewrite sql_available by (apply forallb_negb_tl; exact Hup).
  unfold with_user. finish_run.
Qed.

(** The same submission when a row already carries the email. *)
Lemma signup_ts_email_taken_run (prevState : SignupState) (formData : FormData)
    (w : World) (email password : string) :
  SignupTs.SignupSchema_safeParse email_pattern (signup_ts_fields formData)
    = Zod.Success (email, password) ->
  db_available w ->
  email_taken email (db w) = true ->
  SignupTs.signup email_pattern bcrypt_hash prevState formData w
  = (Returned {| errors := None;
                 message := Some "User already exists with this email." |},
     {| db := db w; faults := tl (faults w); entropy := entropy w; now := now w;
        trace := trace w ++ [Sql (Db.SelectEmailFromUsers email)] |}).
Proof.
  intros Hparse Hup Hemail.
  unfold SignupTs.signup. fold (signup_ts_fields formData). rewrite Hparse.
  unfold try_catch, bind.
  rewrite (sql_available _ w Hup). simpl Db.exec. cbv iota beta.
  rewrite select_nonempty. fold (email_taken email (db w)).
  rewrite Hemail. reflexivity.
Qed.

End Signup.

Section HashedRow.

Variable email_pattern : string -> bool.
Variable bcrypt_hash : string -> nat -> nat -> string.

(** [bcrypt.compare], and what bcrypt promises of a hash: it verifies
    against the data it was made from, and it is not that data. *)
Variable bcrypt_compare : string -> string -> bool.
Hypothesis bcrypt_compare_hash :
  forall data rounds seed,
    bcrypt_compare data (bcrypt_hash data rounds seed) = true.
Hypothesis bcrypt_hash_differs :
  forall data rounds seed, bcrypt_hash data rounds seed <> data.

(** C1: a signup submission that passes the schema and whose name (where
    the variant has one) and email match no row of [users] makes the
    handler, the database answering, call bcrypt's hash on the password with
    cost 10 and issue exactly one INSERT; the store gains exactly one
    [users] row, whose password column is that hash, which verifies against
    the submitted password and differs from it. *)
Theorem signup_stores_one_row_with_hashed_password :
  (forall prevState formData w data,
      SignupSchema_safeParse email_pattern (signup_fields formData)
        = Zod.Success data ->
      db_available w ->
      name_taken (name data) (db w) = false ->
      email_taken (email data) (db w) = false ->
      let w' := snd (signup email_pattern bcrypt_hash prevState formData w) in
      let hashedPassword := bcrypt_hash (password data) 10 (entropy w) in
      get "password" formData = JStr (password data)
      /\ In (BcryptHash (password data) 10) (since w w')
      /\ inserts (since w w')
         = [Db.InsertUsersNameEmailPassword (name data) (email data)
              hashedPassword]
      /\ db w' = with_user (db w)
                   {| Db.user_name := Some (name data);
                      Db.user_email := email data;
                      Db.user_password := hashedPassword |}
      /\ bcrypt_compare (password data) hashedPassword = true
      /\ hashedPassword <> password data)
  /\ (forall prevState formData w email password,
         SignupTs.SignupSchema_safeParse email_pattern
           (signup_ts_fields formData) = Zod.Success (email, password) ->
         db_available w ->
         email_taken email (db w) = false ->
         let w' :=
           snd (SignupTs.signup email_pattern bcrypt_hash prevState formData w) in
         let hashedPassword := bcrypt_hash password 10 (entropy w) in
         get "password" formData = JStr password
         /\ In (BcryptHash password 10) (since w w')
         /\ inserts (since w w')
            = [Db.InsertUsersEmailPassword email hashedPassword]
         /\ db w' = with_user (db w)
                      {| Db.user_name := None;
                         Db.user_email := email;
                         Db.user_password := hashedPassword |}
         /\ bcrypt_compare password hashedPassword = true
         /\ hashedPassword <> password).
Proof.
  split.
  - intros prevState formData w data Hparse Hup Hname Hemail.
    rewrite (signup_fresh_run _ _ _ _ _ _ Hparse Hup Hname Hemail).
    destruct (SignupSchema_succeeds _ _ _ Hparse) as [_ [_ Hpassword]].
    cbv zeta. unfold since. simpl snd. simpl trace.
    rewrite skipn_length_app.
    split; [exact Hpassword |].
    repeat split; auto.
    simpl. auto.
  - intros prevState formData w email password Hparse Hup Hemail.
    rewrite (signup_ts_fresh_run _ _ _ _ _ _ _ Hparse Hup Hemail).
    destruct (SignupTs_SignupSchema_succeeds _ _ _ _ Hparse) as [_ Hpassword].
    cbv zeta. unfold since. simpl snd. simpl trace.
    rewrite skipn_length_app.
    split; [exact Hpassword |].
    repeat split; auto.
    simpl. auto.
Qed.

End HashedRow.

Section Duplicates.

Variable email_pattern : string -> bool.
Variable bcrypt_hash : string -> nat -> nat -> string.

(** C2: a signup submission that passes the schema while some row of
    [users] already carries its name (in the variant that has a name) or
    its email makes the handler, the database answering, return an
    'already exists' message; no INSERT is issued and the store is
    unchanged. *)
Theorem signup_duplicate_is_refused_without_insert :
  (forall prevState formData w data,
      SignupSchema_safeParse email_pattern (signup_fields formData)
        = Zod.Success data ->
      db_available w ->
      name_taken (name data) (db w) = true
      \/ email_taken (email data) (db w) = true ->
      let run := signup email_pattern bcrypt_hash prevState formData w in
      (fst run = Returned {| errors := None;
                             message :=
                               Some "User already exists with this name." |}
       \/ fst run = Returned {| errors := None;
                                message :=
                                  Some "User already exists with this email." |})
      /\ inserts (since w (snd run)) = []
      /\ db (snd run) = db w)
  /\ (forall prevState formData w email password,
         SignupTs.SignupSchema_safeParse email_pattern
           (signup_ts_fields formData) = Zod.Success (email, password) ->
         db_available w ->
         email_taken email (db w) = true ->
         let run :=
           SignupTs.signup email_pattern bcrypt_hash prevState formData w in
         fst run = Returned {| errors := None;
                               message :=
                                 Some "User already exists with this email." |}
         /\ inserts (since w (snd run)) = []
         /\ db (snd run) = db w).
Proof.
  split.
  - intros prevState formData w data Hparse Hup Htaken. cbv zeta.
    destruct (name_taken (name data) (db w)) eqn:Hname.
    + rewrite (signup_name_taken_run _ _ _ _ _ _ Hparse Hup Hname).
      unfold since. simpl. rewrite skipn_length_app. auto.
    + destruct Htaken as [Habs | Hemail]; [discriminate |].
      rewrite (signup_email_taken_run _ _ _ _ _ _ Hparse Hup Hname Hemail).
      unfold since. simpl. rewrite skipn_length_app. auto.
  - intros prevState formData w email password Hparse Hup Hemail. cbv zeta.
    rewrite (signup_ts_email_taken_run _ _ _ _ _ _ _ Hparse Hup Hemail).
    unfold since. simpl. rewrite skipn_length_app. auto.
Qed.

End Duplicates.

Section SuccessSignal.

Variable email_pattern : string -> bool.
Variable bcrypt_hash : string -> nat -> nat -> string.

(** C5, as the code runs: on a valid submission with a fresh name and email,
    the database answering, [signup] of actions.ts calls [redirect] inside
    its [try] block, so the redirect error is caught by its own [catch],
    logged, and the handler returns the database-error message instead of
    leaving by the redirect; [signup] of actions/signup.ts returns
    'User created successfully!'. *)
Theorem signup_redirect_is_caught_by_its_own_catch :
  (forall prevState formData w data,
      SignupSchema_safeParse email_pattern (signup_fields formData)
        = Zod.Success data ->
      db_available w ->
      name_taken (name data) (db w) = false ->
      email_taken (email data) (db w) = false ->
      let run := signup email_pattern bcrypt_hash prevState formData w in
      fst run = Returned {| errors := None;
                            message :=
                              Some "Database Error: Failed to create user." |}
      /\ fst run <> Threw (RedirectError "/login")
      /\ In (ConsoleError "Signup Error:" (RedirectError "/login"))
            (since w (snd run)))
  /\ (forall prevState formData w email password,
         SignupTs.SignupSchema_safeParse email_pattern
           (signup_ts_fields formData) = Zod.Success (email, password) ->
         db_available w ->
         email_taken email (db w) = false ->
         fst (SignupTs.signup email_pattern bcrypt_hash prevState formData w)
         = Returned {| errors := None;
                       message := Some "User created successfully!" |}).
Proof.
  split.
  - intros prevState formData w data Hparse Hup Hname Hemail. cbv zeta.
    rewrite (signup_fresh_run _ _ _ _ _ _ Hparse Hup Hname Hemail).
    unfold since. simpl. rewrite skipn_length_app.
    split; [reflexivity | split; [discriminate |]].
    simpl. auto 10.
  - intros prevState formData w email password Hparse Hup Hemail.
    rewrite (signup_ts_fresh_run _ _ _ _ _ _ _ Hparse Hup Hemail).
    reflexivity.
Qed.

End SuccessSignal.

(** ** Invoices *)

(** What a successful parse of the invoice schema says of the fields read. *)
Lemma FormSchema_succeeds (i : InvoiceInput) (data : InvoiceData) :
  FormSchema_omit_id_data_safeParse i = Zod.Success data ->
  in_customerId i = JStr (customerId data)
  /\ amount data = Number.of_value (in_amount i)
  /\ PrimFloat.leb (amount data) PrimFloat.zero = false
  /\ in_status i = JStr (status data)
  /\ is_status (status data).
Proof.
  unfold FormSchema_omit_id_data_safeParse.
  destruct (Zod.string_ _ (in_customerId i)) as [c | ?] eqn:Ec;
    destruct (Zod.coerce_number_gt _ _ (in_amount i)) as [a | ?] eqn:Ea;
    destruct (Zod.enum _ _ (in_status i)) as [s | ?] eqn:Es;
    try discriminate.
  intro H. injection H as <-. simpl.
  apply enum_accepts_only in Es. destruct Es as [Hs Hin].
  unfold Zod.string_ in Ec. destruct (in_customerId i); try discriminate.
  injection Ec as ->.
  unfold Zod.coerce_number_gt in Ea.
  destruct (PrimFloat.is_nan _); [discriminate |].
  destruct (PrimFloat.leb (Number.of_value (in_amount i)) PrimFloat.zero) eqn:El;
    [discriminate |].
  injection Ea as <-. auto.
Qed.

(** A run of [createInvoice] on a submission that passes the schema: one
    INSERT is issued; when it is answered the handler revalidates and leaves
    by the redirect, when it fails the handler logs and returns. *)
Lemma createInvoice_valid_run (prevState : State) (formData : FormData)
    (w : World) (data : InvoiceData) :
  CreateInvoice_safeParse (create_fields formData) = Zod.Success data ->
  createInvoice prevState formData w
  = if hd false (faults w)
    then
      (Returned {| st_errors := None;
                   st_message :=
                     Some "Database Error: Failed to Create Invoice." |},
       {| db := db w; faults := tl (faults w); entropy := entropy w;
          now := now w;
          trace := trace w ++
            [Sql (Db.InsertInvoices (customerId data) (amount data * 100)%float
                    (status data) (before_T (now w)));
             ConsoleError "Error:" (PostgresError "statement failed")] |})
    else
      (Threw (RedirectError "/dashboard/invoices"),
       {| db := with_invoice (db w) (customerId data) (amount data * 100)%float
                  (status data) (before_T (now w));
          faults := tl (faults w); entropy := entropy w; now := now w;
          trace := trace w ++
            [Sql (Db.InsertInvoices (customerId data) (amount data * 100)%float
                    (status data) (before_T (now w)));
             RevalidatePath "/dashboard/invoices"] |}).
Proof.
  intro Hparse.
  unfold createInvoice. fold (create_fields formData). rewrite Hparse.
  unfold bind at 1. unfold current_date.
  unfold bind at 1. unfold try_catch. unfold bind at 1. unfold sql.
  destruct (hd false (faults w)); unfold with_invoice; finish_run.
Qed.

(** A run of [updateInvoice] on a submission that passes the schema: one
    UPDATE is issued, on the table [invoice]. *)
Lemma updateInvoice_valid_run (id : string) (prevState : State)
    (formData : FormData) (w : World) (data : InvoiceData) :
  Updateinvoice_safeParse (update_fields formData) = Zod.Success data ->
  updateInvoice id prevState formData w
  = (Returned {| st_errors := None;
                 st_message := Some "Database Error: Failed to Update Invoice" |},
     {| db := db w; faults := tl (faults w); entropy := entropy w; now := now w;
        trace := trace w ++
          [Sql (Db.UpdateInvoice (customerId data) (amount data * 100)%float
                  (status data) id)] |}).
Proof.
  intro Hparse.
  unfold updateInvoice. fold (update_fields formData). rewrite Hparse.
  unfold bind at 1. unfold try_catch. unfold bind at 1. unfold sql.
  destruct (hd false (faults w)); finish_run.
Qed.

(** C4: for every invoice-create submission that passes the schema, the
    one statement issued is the INSERT whose amount is [Number(amount) * 100]
    as binary64 arithmetic gives it, handed to the database as it is.  For
    the amount "12.50" that is 1250, an integer number of cents; but the
    handler does nothing to make it one: for "1.1" the INSERT is handed
    110.00000000000001, the float next above 110, and for "0.001" a tenth
    of a cent. *)
Theorem createInvoice_hands_the_insert_an_unrounded_amount
    (prevState : State) (formData : FormData) (w : World) (data : InvoiceData) :
  CreateInvoice_safeParse (create_fields formData) = Zod.Success data ->
  let amountInCents :=
    (Number.of_value (get "amount" formData) * 100)%float in
  statements (since w (snd (createInvoice prevState formData w)))
  = [Db.InsertInvoices (customerId data) amountInCents (status data)
       (before_T (now w))]
  /\ (get "amount" formData = JStr "12.50" ->
      amountInCents = 1250%float /\ Number.is_integer amountInCents = true)
  /\ (get "amount" formData = JStr "1.1" ->
      amountInCents = PrimFloat.next_up 110%float
      /\ Number.is_integer amountInCents = false)
  /\ (get "amount" formData = JStr "0.001" ->
      Number.is_integer amountInCents = false).
Proof.
  intro Hparse. cbv zeta.
  rewrite (createInvoice_valid_run _ _ _ _ Hparse).
  destruct (FormSchema_succeeds _ _ Hparse) as [_ [Ha _]]. simpl in Ha.
  rewrite <- Ha. split; [| split; [| split]].
  - unfold since.
    destruct (hd false (faults w)); simpl; rewrite skipn_length_app;
      reflexivity.
  - intro H. rewrite Ha, H. split; vm_compute; reflexivity.
  - intro H. rewrite Ha, H. split; vm_compute; reflexivity.
  - intro H. rewrite Ha, H. vm_compute. reflexivity.
Qed.

Lemma createInvoice_hands_the_insert_an_unrounded_amount_witness :
  let formData := [("customerId", Text "c1"); ("amount", Text "1.1");
                   ("status", Text "pending")] in
  CreateInvoice_safeParse (create_fields formData)
  = Zod.Success {| customerId := "c1"; amount := Number.of_string "1.1";
                   status := "pending" |}
  /\ statements (since Stub.world
                   (snd (createInvoice Stub.no_state formData Stub.world)))
     = [Db.InsertInvoices "c1" (PrimFloat.next_up 110%float) "pending"
          "2024-05-06"]
  /\ Number.is_integer (PrimFloat.next_up 110%float) = false.
Proof.
  cbv zeta.
  destruct (createInvoice_hands_the_insert_an_unrounded_amount Stub.no_state
              [("customerId", Text "c1"); ("amount", Text "1.1");
               ("status", Text "pending")]
              Stub.world
              {| customerId := "c1"; amount := Number.of_string "1.1";
                 status := "pending" |}
              eq_refl)
    as [Hstmt [_ [H110 _]]].
  split; [reflexivity |]. split.
  - exact Hstmt.
  - exact (proj2 (H110 eq_refl)).
Defined.

(** C9: every statement [createInvoice] issues that writes an invoice
    writes the status "pending" or "paid", and so does every row the run
    adds to [invoices]; a submission whose status is none of the two is
    rejected with a status error and the world untouched, so that no
    statement is issued. *)
Theorem createInvoice_writes_only_pending_or_paid :
  (forall prevState formData w,
      let w' := snd (createInvoice prevState formData w) in
      (forall q s, In q (statements (since w w')) ->
                   written_status q = Some s -> is_status s)
      /\ exists added,
          Db.invoices (db w') = (Db.invoices (db w) ++ added)%list
          /\ Forall (fun r => is_status (Db.invoice_status r)) added)
  /\ (forall prevState formData w,
         status_outside_enum (get "status" formData) ->
         exists fieldErrors,
           createInvoice prevState formData w
           = (Returned {| st_errors := Some fieldErrors;
                          st_message :=
                            Some "Missing Fields. Failed to Create invoice." |},
              w)
           /\ err_status fieldErrors <> None).
Proof.
  split.
  - intros prevState formData w. cbv zeta.
    destruct (CreateInvoice_safeParse (create_fields formData))
      as [data | fieldErrors] eqn:Hparse.
    + rewrite (createInvoice_valid_run _ _ _ _ Hparse).
      destruct (FormSchema_succeeds _ _ Hparse) as [_ [_ [_ [_ Hstatus]]]].
      unfold since.
      destruct (hd false (faults w)); simpl; rewrite skipn_length_app; simpl.
      * split.
        -- intros q s [<- | []]. simpl. intro H. injection H as <-.
           exact Hstatus.
        -- exists []. rewrite app_nil_r. split; [reflexivity | constructor].
      * split.
        -- intros q s [<- | []]. simpl. intro H. injection H as <-.
           exact Hstatus.
        -- eexists. split; [reflexivity |].
           constructor; [exact Hstatus | constructor].
    + unfold createInvoice. fold (create_fields formData). rewrite Hparse.
      unfold ret, since. simpl. rewrite skipn_length_self. simpl.
      split; [intros q s [] |].
      exists []. rewrite app_nil_r. split; [reflexivity | constructor].
  - intros prevState formData w Hs.
    destruct (enum_rejects (Some "Please select an invoice status") _ Hs)
      as [ms Hms].
    eexists. split.
    + unfold createInvoice, CreateInvoice_safeParse.
      rewrite FormSchema_fails; [reflexivity |].
      right. right. simpl. rewrite Hms. discriminate.
    + simpl. rewrite Hms. discriminate.
Qed.

(** C7, as the code runs: [updateInvoice] reads the customer id under the
    key 'custmerId'; for every submission without that key (the customer id
    being under 'customerId' or nowhere) the value read is [null], the
    schema fails with the customerId error 'Please select a customer', the
    handler returns it with its generic message, and the world is
    untouched: no UPDATE is issued. *)
Theorem updateInvoice_misses_customerId
    (id : string) (prevState : State) (formData : FormData) (w : World) :
  has_key "custmerId" formData = false ->
  in_customerId (update_fields formData) = JNull
  /\ exists fieldErrors,
      updateInvoice id prevState formData w
      = (Returned {| st_errors := Some fieldErrors;
                     st_message :=
                       Some "Missing Fields. Failed to Update Invoice." |},
         w)
      /\ err_customerId fieldErrors = Some ["Please select a customer"]
      /\ updates (since w (snd (updateInvoice id prevState formData w))) = [].
Proof.
  intro Hkey. pose proof (get_missing _ _ Hkey) as Hnull.
  split; [exact Hnull |].
  assert (Hrun :
    updateInvoice id prevState formData w
    = (Returned
         {| st_errors :=
              Some {| err_customerId := Some ["Please select a customer"];
                      err_amount :=
                        Zod.issues (Zod.coerce_number_gt PrimFloat.zero
                                      "Please enter an amount greater than $0"
                                      (get "amount" formData));
                      err_status :=
                        Zod.issues (Zod.enum ["pending"; "paid"]
                                      (Some "Please select an invoice status")
                                      (get "status" formData)) |};
            st_message := Some "Missing Fields. Failed to Update Invoice." |},
       w)).
  { unfold updateInvoice, Updateinvoice_safeParse.
    rewrite FormSchema_fails; simpl; rewrite Hnull; simpl;
      [reflexivity | left; discriminate]. }
  eexists. split; [exact Hrun |]. split; [reflexivity |].
  rewrite Hrun. unfold since. simpl. rewrite skipn_length_self. reflexivity.
Qed.

(** C7, as it is written, fails on the value read: a form that carries the
    customer id under 'customerId' only has [null] read for it, not
    [undefined], and the error is the schema's own message, not the
    'Required' that zod gives for [undefined]. *)
Lemma updateInvoice_reads_null_not_undefined :
  let formData := [("customerId", Text "c1"); ("amount", Text "12.50");
                   ("status", Text "pending")] in
  has_key "customerId" formData = true
  /\ has_key "custmerId" formData = false
  /\ in_customerId (update_fields formData) <> JUndefined
  /\ in_customerId (update_fields formData) = JNull
  /\ fst (updateInvoice "1" Stub.no_state formData Stub.world)
     = Returned
         {| st_errors :=
              Some {| err_customerId := Some ["Please select a customer"];
                      err_amount := None;
                      err_status := None |};
            st_message := Some "Missing Fields. Failed to Update Invoice." |}
  /\ Zod.string_ (Some "Please select a customer") JUndefined
     = Zod.Invalid ["Required"].
Proof.
  cbv zeta. repeat (split; [try reflexivity; try discriminate |]).
  reflexivity.
Qed.

(** ** The shape of what the handlers return *)

Lemma returns_only_ret {A : Type} (P : A -> Prop) (a : A) :
  P a -> returns_only P (ret a).
Proof.
  intros H w b w' E. unfold ret in E. injection E as <- _. exact H.
Qed.

Lemma returns_only_throw {A : Type} (P : A -> Prop) (e : Exn) :
  returns_only P (throw e).
Proof.
  intros w b w' E. discriminate E.
Qed.

Lemma returns_only_bind {A B : Type} (P : B -> Prop) (m : M A) (k : A -> M B) :
  (forall a, returns_only P (k a)) -> returns_only P (bind m k).
Proof.
  intros H w b w' E. unfold bind in E.
  destruct (m w) as [[a | e] w1]; [exact (H a w1 b w' E) | discriminate E].
Qed.

Lemma returns_only_try_catch {A : Type} (P : A -> Prop) (body : M A)
    (handler : Exn -> M A) :
  returns_only P body -> (forall e, returns_only P (handler e)) ->
  returns_only P (try_catch body handler).
Proof.
  intros Hb Hh w a w' E. unfold try_catch in E.
  destruct (body w) as [[b | e] w1] eqn:Eb.
  - injection E as <- <-. exact (Hb w b w1 Eb).
  - exact (Hh e w1 a w' E).
Qed.

Create HintDb handlers.
#[local] Hint Resolve returns_only_ret returns_only_throw : handlers.

Section ReturnShape.

Variable email_pattern : string -> bool.
Variable bcrypt_hash : string -> nat -> nat -> string.

(** Past validation, [signup] of actions.ts returns message-only objects. *)
Lemma signup_valid_returns_message_only (prevState : SignupState)
    (formData : FormData) (data : SignupData) :
  SignupSchema_safeParse email_pattern (signup_fields formData)
    = Zod.Success data ->
  returns_only message_only (signup email_pattern bcrypt_hash prevState formData).
Proof.
  intro Hparse. unfold signup. fold (signup_fields formData). rewrite Hparse.
  assert (Hmsg : forall m, message_only {| errors := None; message := Some m |})
    by (intro m; split; [reflexivity | discriminate]).
  apply returns_only_try_catch.
  - apply returns_only_bind. intro existingUsername.
    destruct (Nat.ltb 0 (length existingUsername)); [auto with handlers |].
    apply returns_only_bind. intro existingEmail.
    destruct (Nat.ltb 0 (length existingEmail)); [auto with handlers |].
    apply returns_only_bind. intro hashedPassword.
    apply returns_only_bind. intros _.
    unfold redirect. auto with handlers.
  - intro e. apply returns_only_bind. intros _. auto with handlers.
Qed.

(** Past validation, [signup] of actions/signup.ts does the same. *)
Lemma signup_ts_valid_returns_message_only (prevState : SignupState)
    (formData : FormData) (data : string * string) :
  SignupTs.SignupSchema_safeParse email_pattern (signup_ts_fields formData)
    = Zod.Success data ->
  returns_only message_only
    (SignupTs.signup email_pattern bcrypt_hash prevState formData).
Proof.
  intro Hparse. unfold SignupTs.signup. fold (signup_ts_fields formData).
  rewrite Hparse. destruct data as [email password].
  assert (Hmsg : forall m, message_only {| errors := None; message := Some m |})
    by (intro m; split; [reflexivity | discriminate]).
  apply returns_only_try_catch.
  - apply returns_only_bind. intro existingUser.
    destruct (Nat.ltb 0 (length existingUser)); [auto with handlers |].
    apply returns_only_bind. intro hashedPassword.
    apply returns_only_bind. intros _. auto with handlers.
  - intro e. apply returns_only_bind. intros _. auto with handlers.
Qed.

(** The shape of what is returned: a rejected submission returns an object
    with an 'errors' key and a message, and every object returned carries a
    message, and carries 'errors' exactly when the schema rejected the
    submission. *)
Lemma returned_object_has_errors_iff_rejected :
  (forall prevState formData w,
      let parsed :=
        SignupSchema_safeParse email_pattern (signup_fields formData) in
      let run := signup email_pattern bcrypt_hash prevState formData w in
      (Zod.success parsed = false ->
       exists fieldErrors m,
         run = (Returned {| errors := Some fieldErrors; message := Some m |}, w))
      /\ (forall st, fst run = Returned st ->
            message st <> None
            /\ (errors st <> None <-> Zod.success parsed = false)))
  /\ (forall prevState formData w,
         let parsed :=
           SignupTs.SignupSchema_safeParse email_pattern
             (signup_ts_fields formData) in
         let run :=
           SignupTs.signup email_pattern bcrypt_hash prevState formData w in
         (Zod.success parsed = false ->
          exists fieldErrors m,
            run = (Returned {| errors := Some fieldErrors; message := Some m |},
                   w))
         /\ (forall st, fst run = Returned st ->
               message st <> None
               /\ (errors st <> None <-> Zod.success parsed = false)))
  /\ (forall prevState formData w,
         let parsed := CreateInvoice_safeParse (create_fields formData) in
         let run := createInvoice prevState formData w in
         (Zod.success parsed = false ->
          exists fieldErrors m,
            run = (Returned {| st_errors := Some fieldErrors;
                               st_message := Some m |}, w))
         /\ (forall st, fst run = Returned st ->
               st_message st <> None
               /\ (st_errors st <> None <-> Zod.success parsed = false)))
  /\ (forall id prevState formData w,
         let parsed := Updateinvoice_safeParse (update_fields formData) in
         let run := updateInvoice id prevState formData w in
         (Zod.success parsed = false ->
          exists fieldErrors m,
            run = (Returned {| st_errors := Some fieldErrors;
                               st_message := Some m |}, w))
         /\ (forall st, fst run = Returned st ->
               st_message st <> None
               /\ (st_errors st <> None <-> Zod.success parsed = false))).
Proof.
  split; [| split; [| split]].
  - intros prevState formData w. cbv zeta.
    destruct (SignupSchema_safeParse email_pattern (signup_fields formData))
      as [data | fieldErrors] eqn:Hparse.
    + split; [discriminate |]. intros st Hst.
      destruct (signup email_pattern bcrypt_hash prevState formData w)
        as [r w'] eqn:Hrun.
      simpl in Hst. subst r.
      destruct (signup_valid_returns_message_only prevState formData data
                  Hparse w st w' Hrun) as [Herr Hmsg].
      split; [exact Hmsg |]. rewrite Herr. simpl. split; intro H;
        [contradiction | discriminate].
    + assert (Hrun :
        signup email_pattern bcrypt_hash prevState formData w
        = (Returned {| errors := Some fieldErrors;
                       message := Some "Invalid fields." |}, w)).
      { unfold signup. fold (signup_fields formData). rewrite Hparse.
        reflexivity. }
      rewrite Hrun. split; [eauto |].
      simpl. intros st H. injection H as <-. simpl.
      split; [discriminate |]. split; [reflexivity | discriminate].
  - intros prevState formData w. cbv zeta.
    destruct (SignupTs.SignupSchema_safeParse email_pattern
                (signup_ts_fields formData))
      as [data | fieldErrors] eqn:Hparse.
    + split; [discriminate |]. intros st Hst.
      destruct (SignupTs.signup email_pattern bcrypt_hash prevState formData w)
        as [r w'] eqn:Hrun.
      simpl in Hst. subst r.
      destruct (signup_ts_valid_returns_message_only prevState formData data
                  Hparse w st w' Hrun) as [Herr Hmsg].
      split; [exact Hmsg |]. rewrite Herr. simpl. split; intro H;
        [contradiction | discriminate].
    + assert (Hrun :
        SignupTs.signup email_pattern bcrypt_hash prevState formData w
        = (Returned {| errors := Some fieldErrors;
                       message := Some "Invalid fields." |}, w)).
      { unfold SignupTs.signup. fold (signup_ts_fields formData).
        rewrite Hparse. reflexivity. }
      rewrite Hrun. split; [eauto |].
      simpl. intros st H. injection H as <-. simpl.
      split; [discriminate |]. split; [reflexivity | discriminate].
  - intros prevState formData w. cbv zeta.
    destruct (CreateInvoice_safeParse (create_fields formData))
      as [data | fieldErrors] eqn:Hparse.
    + split; [discriminate |]. intros st.
      rewrite (createInvoice_valid_run _ _ _ _ Hparse).
      destruct (hd false (faults w)); simpl; [| discriminate].
      intro H. injection H as <-. simpl.
      split; [discriminate |]. split; intro H; [contradiction | discriminate].
    + assert (Hrun :
        createInvoice prevState formData w
        = (Returned {| st_errors := Some fieldErrors;
                       st_message :=
                         Some "Missing Fields. Failed to Create invoice." |},
           w)).
      { unfold createInvoice. fold (create_fields formData). rewrite Hparse.
        reflexivity. }
      rewrite Hrun. split; [eauto |].
      simpl. intros st H. injection H as <-. simpl.
      split; [discriminate |]. split; [reflexivity | discriminate].
  - intros id prevState formData w. cbv zeta.
    destruct (Updateinvoice_safeParse (update_fields formData))
      as [data | fieldErrors] eqn:Hparse.
    + split; [discriminate |]. intros st.
      rewrite (updateInvoice_valid_run _ _ _ _ _ Hparse). simpl.
      intro H. injection H as <-. simpl.
      split; [discriminate |]. split; intro H; [contradiction | discriminate].
    + assert (Hrun :
        updateInvoice id prevState formData w
        = (Returned {| st_errors := Some fieldErrors;
                       st_message :=
                         Some "Missing Fields. Failed to Update Invoice." |},
           w)).
      { unfold updateInvoice. fold (update_fields formData). rewrite Hparse.
        reflexivity. }
      rewrite Hrun. split; [eauto |].
      simpl. intros st H. injection H as <-. simpl.
      split; [discriminate |]. split; [reflexivity | discriminate].
Qed.

End ReturnShape.

(** ** The theorems on concrete submissions *)

Lemma signup_stores_one_row_with_hashed_password_witness :
  let w' := snd (signup Stub.email_pattern Stub.hash Stub.no_signup_state
                   Stub.alice_signs_up Stub.world) in
  (SignupSchema_safeParse Stub.email_pattern (signup_fields Stub.alice_signs_up)
   = Zod.Success {| name := "alice"; email := "alice@example.com";
                    password := "secret" |}
   /\ db_available Stub.world
   /\ name_taken "alice" (db Stub.world) = false
   /\ email_taken "alice@example.com" (db Stub.world) = false)
  /\ db w' = db Stub.world_with_alice
  /\ Stub.compare "secret" "$2b$10$0$secret" = true
  /\ "$2b$10$0$secret" <> "secret".
Proof.
  cbv zeta.
  destruct (proj1 (signup_stores_one_row_with_hashed_password
                     Stub.email_pattern Stub.hash Stub.compare
                     stub_compare_hash stub_hash_differs)
              Stub.no_signup_state Stub.alice_signs_up Stub.world
              {| name := "alice"; email := "alice@example.com";
                 password := "secret" |}
              eq_refl eq_refl eq_refl eq_refl)
    as [_ [_ [_ [Hdb [Hcmp Hne]]]]].
  split; [repeat split |]. split; [exact Hdb |]. split; [exact Hcmp | exact Hne].
Defined.

Lemma signup_duplicate_is_refused_without_insert_witness :
  let run := signup Stub.email_pattern Stub.hash Stub.no_signup_state
               Stub.alice_signs_up Stub.world_with_alice in
  (db_available Stub.world_with_alice
   /\ name_taken "alice" (db Stub.world_with_alice) = true)
  /\ inserts (since Stub.world_with_alice (snd run)) = []
  /\ db (snd run) = db Stub.world_with_alice.
Proof.
  cbv zeta.
  destruct (proj1 (signup_duplicate_is_refused_without_insert
                     Stub.email_pattern Stub.hash)
              Stub.no_signup_state Stub.alice_signs_up Stub.world_with_alice
              {| name := "alice"; email := "alice@example.com";
                 password := "secret" |}
              eq_refl eq_refl (or_introl eq_refl))
    as [_ [Hins Hdb]].
  split; [split; reflexivity |]. split; [exact Hins | exact Hdb].
Defined.

Lemma invalid_submission_is_rejected_before_the_database_witness :
  (short_password (get "password" Stub.bad_signup)
   /\ amount_not_positive (get "amount" Stub.bad_invoice))
  /\ (exists fieldErrors,
         signup Stub.email_pattern Stub.hash Stub.no_signup_state
           Stub.bad_signup Stub.world
         = (Returned {| errors := Some fieldErrors;
                        message := Some "Invalid fields." |}, Stub.world))
  /\ (exists fieldErrors,
         createInvoice Stub.no_state Stub.bad_invoice Stub.world
         = (Returned {| st_errors := Some fieldErrors;
                        st_message :=
                          Some "Missing Fields. Failed to Create invoice." |},
            Stub.world)).
Proof.
  assert (Hshort : short_password (get "password" Stub.bad_signup)).
  { exists "secr". split; [reflexivity | simpl; lia]. }
  assert (Hamount : amount_not_positive (get "amount" Stub.bad_invoice)).
  { vm_compute. reflexivity. }
  destruct (invalid_submission_is_rejected_before_the_database
              Stub.email_pattern Stub.hash) as [Hsignup [_ Hcreate]].
  split; [split; assumption |]. split.
  - destruct (Hsignup Stub.no_signup_state Stub.bad_signup Stub.world
                (or_intror Hshort)) as [fieldErrors [Hrun _]].
    exists fieldErrors. exact Hrun.
  - destruct (Hcreate Stub.no_state Stub.bad_invoice Stub.world
                (or_introl Hamount)) as [fieldErrors [Hrun _]].
    exists fieldErrors. exact Hrun.
Defined.

Lemma signup_redirect_is_caught_by_its_own_catch_witness :
  (db_available Stub.world
   /\ name_taken "alice" (db Stub.world) = false
   /\ email_taken "alice@example.com" (db Stub.world) = false)
  /\ fst (signup Stub.email_pattern Stub.hash Stub.no_signup_state
            Stub.alice_signs_up Stub.world)
     = Returned {| errors := None;
                   message := Some "Database Error: Failed to create user." |}.
Proof.
  split; [repeat split |].
  exact (proj1 (proj1 (signup_redirect_is_caught_by_its_own_catch
                         Stub.email_pattern Stub.hash)
                  Stub.no_signup_state Stub.alice_signs_up Stub.world
                  {| name := "alice"; email := "alice@example.com";
                     password := "secret" |}
                  eq_refl eq_refl eq_refl eq_refl)).
Defined.

Lemma updateInvoice_misses_customerId_witness :
  has_key "custmerId" Stub.invoice_12_50 = false
  /\ in_customerId (update_fields Stub.invoice_12_50) = JNull
  /\ updates (since Stub.world
                (snd (updateInvoice "1" Stub.no_state Stub.invoice_12_50
                        Stub.world))) = [].
Proof.
  destruct (updateInvoice_misses_customerId "1" Stub.no_state
              Stub.invoice_12_50 Stub.world eq_refl)
    as [Hnull [fieldErrors [_ [_ Hupdates]]]].
  split; [reflexivity |]. split; [exact Hnull | exact Hupdates].
Defined.

Lemma createInvoice_writes_only_pending_or_paid_witness :
  status_outside_enum (get "status" Stub.bad_invoice)
  /\ exists fieldErrors,
      createInvoice Stub.no_state Stub.bad_invoice Stub.world
      = (Returned {| st_errors := Some fieldErrors;
                     st_message :=
                       Some "Missing Fields. Failed to Create invoice." |},
         Stub.world)
      /\ err_status fieldErrors <> None.
Proof.
  assert (Hstatus : status_outside_enum (get "status" Stub.bad_invoice)).
  { split; discriminate. }
  split; [exact Hstatus |].
  exact (proj2 createInvoice_writes_only_pending_or_paid
           Stub.no_state Stub.bad_invoice Stub.world Hstatus).
Defined.


(** * Beyond the success and rejection paths *)

(** ** Every run of the signup handlers *)

Lemma NoDup_snoc {A : Type} (l : list A) (x : A) :
  NoDup l -> ~ In x l -> NoDup (l ++ [x]).
Proof.
  induction l as [| y l IH]; simpl; intros Hl Hx.
  - constructor; [intros [] | constructor].
  - inversion Hl as [| ? ? Hy Hl']; subst. constructor.
    + rewrite in_app_iff. simpl. intros [H | [H | []]]; [exact (Hy H) |].
      apply Hx. left. symmetry. exact H.
    + apply IH; [exact Hl' |]. intro H. apply Hx. right. exact H.
Qed.

Lemma email_free_not_in (e : string) (d : Db.t) :
  email_taken e d = false -> ~ In e (emails d).
Proof.
  unfold email_taken, emails.
  induction (Db.users d) as [| r l IH]; simpl; [intros _ [] |].
  intro H. apply orb_false_iff in H. destruct H as [Hr Hl].
  intros [Heq | Hin]; [| exact (IH Hl Hin)].
  unfold Db.email_is in Hr. apply String.eqb_neq in Hr. exact (Hr Heq).
Qed.

Lemma name_free_not_in (n : string) (d : Db.t) :
  name_taken n d = false -> ~ In n (names d).
Proof.
  unfold name_taken, names.
  induction (Db.users d) as [| r l IH]; simpl; [intros _ [] |].
  intro H. apply orb_false_iff in H. destruct H as [Hr Hl].
  rewrite in_app_iff. intros [Hin | Hin]; [| exact (IH Hl Hin)].
  unfold Db.name_is in Hr. destruct (Db.user_name r) as [m |]; [| destruct Hin].
  destruct Hin as [<- | []]. rewrite String.eqb_refl in Hr. discriminate Hr.
Qed.

Lemma email_taken_with_user (e : string) (d : Db.t) (r : Db.UserRow) :
  email_taken e (with_user d r) = email_taken e d || Db.email_is e r.
Proof.
  unfold email_taken, with_user. simpl. rewrite existsb_app. simpl.
  rewrite orb_false_r. reflexivity.
Qed.

Lemma name_taken_with_user (n : string) (d : Db.t) (r : Db.UserRow) :
  name_taken n (with_user d r) = name_taken n d || Db.name_is n r.
Proof.
  unfold name_taken, with_user. simpl. rewrite existsb_app. simpl.
  rewrite orb_false_r. reflexivity.
Qed.

Section EveryRun.

Variable email_pattern : string -> bool.
Variable bcrypt_hash : string -> nat -> nat -> string.

(** What [signup] of actions.ts does with a submission that passes the
    schema, in every world. *)
Lemma signup_valid_run (prevState : SignupState) (formData : FormData)
    (w : World) (data : SignupData) :
  SignupSchema_safeParse email_pattern (signup_fields formData)
    = Zod.Success data ->
  let q1 := Sql (Db.SelectNameFromUsers (name data)) in
  let q2 := Sql (Db.SelectEmailFromUsers (email data)) in
  let hashed := bcrypt_hash (password data) 10 (entropy w) in
  let q3 := Sql (Db.InsertUsersNameEmailPassword (name data) (email data) hashed) in
  let failed := ConsoleError "Signup Error:" (PostgresError "statement failed") in
  let f1 := tl (faults w) in
  let f2 := tl f1 in
  let f3 := tl f2 in
  signup email_pattern bcrypt_hash prevState formData w
  = if hd false (faults w) then
      (Returned database_error, after w (db w) f1 (entropy w) [q1; failed])
    else if name_taken (name data) (db w) then
      (Returned {| errors := None;
                   message := Some "User already exists with this name." |},
       after w (db w) f1 (entropy w) [q1])
    else if hd false f1 then
      (Returned database_error, after w (db w) f2 (entropy w) [q1; q2; failed])
    else if email_taken (email data) (db w) then
      (Returned {| errors := None;
                   message := Some "User already exists with this email." |},
       after w (db w) f2 (entropy w) [q1; q2])
    else if hd false f2 then
      (Returned database_error,
       after w (db w) f3 (S (entropy w))
         [q1; q2; BcryptHash (password data) 10; q3; failed])
    else
      (Returned database_error,
       after w (with_user (db w)
                  {| Db.user_name := Some (name data);
                     Db.user_email := email data;
                     Db.user_password := hashed |})
         f3 (S (entropy w))
         [q1; q2; BcryptHash (password data) 10; q3;
          ConsoleError "Signup Error:" (RedirectError "/login")]).
Proof.
  intro Hparse. cbv zeta.
  unfold signup. fold (signup_fields formData). rewrite Hparse.
  unfold try_catch, bind, sql, bcrypt_hash_async, after, database_error.
  destruct (hd false (faults w)); [finish_run |].
  simpl Db.exec. cbv iota beta. rewrite select_nonempty.
  fold (name_taken (name data) (db w)).
  destruct (name_taken (name data) (db w)); [finish_run |].
  simpl faults. destruct (hd false (tl (faults w))); [finish_run |].
  simpl Db.exec. cbv iota beta. simpl db. rewrite select_nonempty.
  fold (email_taken (email data) (db w)).
  destruct (email_taken (email data) (db w)); [finish_run |].
  simpl faults. destruct (hd false (tl (tl (faults w)))); unfold with_user; finish_run.
Qed.

(** The same for [signup] of actions/signup.ts. *)
Lemma signup_ts_valid_run (prevState : SignupState) (formData : FormData)
    (w : World) (email password : string) :
  SignupTs.SignupSchema_safeParse email_pattern (signup_ts_fields formData)
    = Zod.Success (email, password) ->
  let q1 := Sql (Db.SelectEmailFromUsers email) in
  let hashed := bcrypt_hash password 10 (entropy w) in
  let q2 := Sql (Db.InsertUsersEmailPassword email hashed) in
  let f1 := tl (faults w) in
  let f2 := tl f1 in
  SignupTs.signup email_pattern bcrypt_hash prevState formData w
  = if hd false (faults w) then
      (Returned database_error,
       after w (db w) f1 (entropy w) [q1; statement_failed])
    else if email_taken email (db w) then
      (Returned {| errors := None;
                   message := Some "User already exists with this email." |},
       after w (db w) f1 (entropy w) [q1])
    else if hd false f1 then
      (Returned database_error,
       after w (db w) f2 (S (entropy w))
         [q1; BcryptHash password 10; q2; statement_failed])
    else
      (Returned created,
       after w (with_user (db w)
                  {| Db.user_name := None;
                     Db.user_email := email;
                     Db.user_password := hashed |})
         f2 (S (entropy w)) [q1; BcryptHash password 10; q2]).
Proof.
  intro Hparse. cbv zeta.
  unfold SignupTs.signup. fold (signup_ts_fields formData). rewrite Hparse.
  unfold try_catch, bind, sql, bcrypt_hash_async, after, database_error,
    created, statement_failed.
  destruct (hd false (faults w)); [finish_run |].
  simpl Db.exec. cbv iota beta. rewrite select_nonempty.
  fold (email_taken email (db w)).
  destruct (email_taken email (db w)); [finish_run |].
  simpl faults. destruct (hd false (tl (faults w))); unfold with_user;
    finish_run.
Qed.

(** The store after a run: as before, or with the submitted row. *)
Lemma signup_store_cases :
  (forall prevState formData w,
      let w' := snd (signup email_pattern bcrypt_hash prevState formData w) in
      db w' = db w
      \/ exists n e p,
           get "name" formData = JStr n
           /\ get "email" formData = JStr e
           /\ get "password" formData = JStr p
           /\ name_taken n (db w) = false
           /\ email_taken e (db w) = false
           /\ db w' = with_user (db w)
                        {| Db.user_name := Some n;
                           Db.user_email := e;
                           Db.user_password :=
                             bcrypt_hash p 10 (entropy w) |})
  /\ (forall prevState formData w,
         let w' :=
           snd (SignupTs.signup email_pattern bcrypt_hash prevState formData w) in
         db w' = db w
         \/ exists e p,
              get "email" formData = JStr e
              /\ get "password" formData = JStr p
              /\ email_taken e (db w) = false
              /\ db w' = with_user (db w)
                           {| Db.user_name := None;
                              Db.user_email := e;
                              Db.user_password :=
                                bcrypt_hash p 10 (entropy w) |}).
Proof.
  split; intros prevState formData w; cbv zeta.
  - destruct (SignupSchema_safeParse email_pattern (signup_fields formData))
      as [data | fieldErrors] eqn:Hparse.
    + rewrite (signup_valid_run _ _ _ _ Hparse). cbv zeta.
      destruct (SignupSchema_succeeds _ _ _ Hparse) as [Hn [He Hp]].
      simpl in Hn, He, Hp.
      destruct (hd false (faults w)); [left; reflexivity |].
      destruct (name_taken (name data) (db w)) eqn:Hname;
        [left; reflexivity |].
      destruct (hd false (tl (faults w))); [left; reflexivity |].
      destruct (email_taken (email data) (db w)) eqn:Hemail;
        [left; reflexivity |].
      destruct (hd false (tl (tl (faults w)))); [left; reflexivity |].
      right. exists (name data), (email data), (password data).
      repeat split; assumption.
    + left. unfold signup. fold (signup_fields formData). rewrite Hparse.
      reflexivity.
  - destruct (SignupTs.SignupSchema_safeParse email_pattern
                (signup_ts_fields formData))
      as [[email password] | fieldErrors] eqn:Hparse.
    + rewrite (signup_ts_valid_run _ _ _ _ _ Hparse). cbv zeta.
      destruct (SignupTs_SignupSchema_succeeds _ _ _ _ Hparse) as [He Hp].
      simpl in He, Hp.
      destruct (hd false (faults w)); [left; reflexivity |].
      destruct (email_taken email (db w)) eqn:Hemail; [left; reflexivity |].
      destruct (hd false (tl (faults w))); [left; reflexivity |].
      right. exists email, password. repeat split; assumption.
    + left. unfold SignupTs.signup. fold (signup_ts_fields formData).
      rewrite Hparse. reflexivity.
Qed.

(** X1: neither [signup] ever throws: for every form and every world, a
    failing database included, the handler returns an object, and the
    object carries a message. *)
Theorem signup_always_returns_a_message :
  (forall prevState formData w,
      exists st m,
        fst (signup email_pattern bcrypt_hash prevState formData w)
        = Returned st /\ message st = Some m)
  /\ (forall prevState formData w,
         exists st m,
           fst (SignupTs.signup email_pattern bcrypt_hash prevState formData w)
           = Returned st /\ message st = Some m).
Proof.
  split; intros prevState formData w.
  - destruct (SignupSchema_safeParse email_pattern (signup_fields formData))
      as [data | fieldErrors] eqn:Hparse.
    + rewrite (signup_valid_run _ _ _ _ Hparse). cbv zeta.
      repeat match goal with
             | |- context [if ?b then _ else _] => destruct b
             end; unfold database_error, created; simpl;
        do 2 eexists; split; reflexivity.
    + unfold signup. fold (signup_fields formData). rewrite Hparse.
      simpl. do 2 eexists; split; reflexivity.
  - destruct (SignupTs.SignupSchema_safeParse email_pattern
                (signup_ts_fields formData))
      as [[email password] | fieldErrors] eqn:Hparse.
    + rewrite (signup_ts_valid_run _ _ _ _ _ Hparse). cbv zeta.
      repeat match goal with
             | |- context [if ?b then _ else _] => destruct b
             end; unfold database_error, created; simpl;
        do 2 eexists; split; reflexivity.
    + unfold SignupTs.signup. fold (signup_ts_fields formData).
      rewrite Hparse. simpl. do 2 eexists; split; reflexivity.
Qed.

(** X2: for every form and every world, a run of [signup] (either variant)
    leaves the rows of [users] in place and appends at most one; the
    password of an appended row is bcrypt's hash, at cost 10, of the
    submitted password; [invoices] is not touched. *)
Theorem signup_only_appends_one_hashed_row :
  (forall prevState formData w,
      let w' := snd (signup email_pattern bcrypt_hash prevState formData w) in
      exists added,
        Db.users (db w') = (Db.users (db w) ++ added)%list
        /\ length added <= 1
        /\ Forall (fun r =>
                     exists p,
                       get "password" formData = JStr p
                       /\ Db.user_password r = bcrypt_hash p 10 (entropy w))
                  added
        /\ Db.invoices (db w') = Db.invoices (db w))
  /\ (forall prevState formData w,
         let w' :=
           snd (SignupTs.signup email_pattern bcrypt_hash prevState formData w) in
         exists added,
           Db.users (db w') = (Db.users (db w) ++ added)%list
           /\ length added <= 1
           /\ Forall (fun r =>
                        exists p,
                          get "password" formData = JStr p
                          /\ Db.user_password r
                             = bcrypt_hash p 10 (entropy w))
                     added
           /\ Db.invoices (db w') = Db.invoices (db w)).
Proof.
  split; intros prevState formData w; cbv zeta.
  - destruct (proj1 signup_store_cases prevState formData w)
      as [-> | [n [e [p [_ [_ [Hp [_ [_ ->]]]]]]]]].
    + exists []. rewrite app_nil_r. repeat split; auto.
    + eexists. split; [reflexivity |]. repeat split; auto.
      constructor; [| constructor]. exists p. split; [exact Hp | reflexivity].
  - destruct (proj2 signup_store_cases prevState formData w)
      as [-> | [e [p [_ [Hp [_ ->]]]]]].
    + exists []. rewrite app_nil_r. repeat split; auto.
    + eexists. split; [reflexivity |]. repeat split; auto.
      constructor; [| constructor]. exists p. split; [exact Hp | reflexivity].
Qed.

(** X3: when the database fails on one of the statements a valid signup
    issues, the handler (either variant) logs the failure, returns
    'Database Error: Failed to create user.' and leaves the store as it
    was. *)
Theorem signup_failure_writes_nothing :
  (forall prevState formData w data,
      SignupSchema_safeParse email_pattern (signup_fields formData)
        = Zod.Success data ->
      signup_hits_a_fault (negb (name_taken (name data) (db w)))
        (negb (email_taken (email data) (db w))) (faults w) = true ->
      let run := signup email_pattern bcrypt_hash prevState formData w in
      fst run = Returned database_error
      /\ db (snd run) = db w
      /\ In statement_failed (since w (snd run)))
  /\ (forall prevState formData w email password,
         SignupTs.SignupSchema_safeParse email_pattern
           (signup_ts_fields formData) = Zod.Success (email, password) ->
         signup_ts_hits_a_fault (negb (email_taken email (db w))) (faults w)
           = true ->
         let run :=
           SignupTs.signup email_pattern bcrypt_hash prevState formData w in
         fst run = Returned database_error
         /\ db (snd run) = db w
         /\ In statement_failed (since w (snd run))).
Proof.
  split.
  - intros prevState formData w data Hparse Hfault. cbv zeta.
    rewrite (signup_valid_run _ _ _ _ Hparse). cbv zeta.
    revert Hfault.
    unfold signup_hits_a_fault, since, after, statement_failed.
    destruct (hd false (faults w)), (name_taken (name data) (db w)),
      (hd false (tl (faults w))), (email_taken (email data) (db w)),
      (hd false (tl (tl (faults w)))); simpl; try discriminate; intros _;
      rewrite skipn_length_app; simpl; auto 10.
  - intros prevState formData w email password Hparse Hfault. cbv zeta.
    rewrite (signup_ts_valid_run _ _ _ _ _ Hparse). cbv zeta.
    revert Hfault.
    unfold signup_ts_hits_a_fault, since, after, statement_failed.
    destruct (hd false (faults w)), (email_taken email (db w)),
      (hd false (tl (faults w))); simpl; try discriminate; intros _;
      rewrite skipn_length_app; simpl; auto 10.
Qed.

(** X4: [signup] of actions/signup.ts returns 'User created successfully!'
    only when the store has gained the row with the submitted email and the
    hash of the submitted password; whenever it returns or does anything
    else, the store is unchanged. *)
Theorem signup_ts_success_message_is_truthful
    (prevState : SignupState) (formData : FormData) (w : World) :
  let run := SignupTs.signup email_pattern bcrypt_hash prevState formData w in
  (fst run = Returned created ->
   exists e p,
     get "email" formData = JStr e
     /\ get "password" formData = JStr p
     /\ db (snd run) = with_user (db w)
                          {| Db.user_name := None;
                             Db.user_email := e;
                             Db.user_password := bcrypt_hash p 10 (entropy w) |})
  /\ (fst run <> Returned created -> db (snd run) = db w).
Proof.
  cbv zeta.
  destruct (SignupTs.SignupSchema_safeParse email_pattern
              (signup_ts_fields formData))
    as [[email password] | fieldErrors] eqn:Hparse.
  - rewrite (signup_ts_valid_run _ _ _ _ _ Hparse). cbv zeta.
    destruct (SignupTs_SignupSchema_succeeds _ _ _ _ Hparse) as [He Hp].
    simpl in He, Hp. unfold created, database_error.
    destruct (hd false (faults w)); [split; [discriminate | reflexivity] |].
    destruct (email_taken email (db w)); [split; [discriminate | reflexivity] |].
    destruct (hd false (tl (faults w))); [split; [discriminate | reflexivity] |].
    split.
    + intros _. exists email, password. auto.
    + intro H. contradiction H. reflexivity.
  - unfold SignupTs.signup. fold (signup_ts_fields formData). rewrite Hparse.
    unfold created. simpl. split; [discriminate | reflexivity].
Qed.

(** X5: a run of [signup] (either variant) on a [users] table whose names
    and whose emails are pairwise distinct leaves them pairwise distinct,
    whatever the form and the world. *)
Theorem signup_keeps_names_and_emails_unique :
  (forall prevState formData w,
      NoDup (names (db w)) -> NoDup (emails (db w)) ->
      let w' := snd (signup email_pattern bcrypt_hash prevState formData w) in
      NoDup (names (db w')) /\ NoDup (emails (db w')))
  /\ (forall prevState formData w,
         NoDup (names (db w)) -> NoDup (emails (db w)) ->
         let w' :=
           snd (SignupTs.signup email_pattern bcrypt_hash prevState formData w) in
         NoDup (names (db w')) /\ NoDup (emails (db w'))).
Proof.
  split; intros prevState formData w Hnames Hemails; cbv zeta.
  - destruct (proj1 signup_store_cases prevState formData w)
      as [-> | [n [e [p [_ [_ [_ [Hn [He ->]]]]]]]]]; [auto |].
    unfold names, emails, with_user. simpl.
    rewrite flat_map_app, map_app. simpl. split.
    + apply NoDup_snoc; [exact Hnames | exact (name_free_not_in _ _ Hn)].
    + apply NoDup_snoc; [exact Hemails | exact (email_free_not_in _ _ He)].
  - destruct (proj2 signup_store_cases prevState formData w)
      as [-> | [e [p [_ [_ [He ->]]]]]]; [auto |].
    unfold names, emails, with_user. simpl.
    rewrite flat_map_app, map_app. simpl. rewrite app_nil_r. split.
    + exact Hnames.
    + apply NoDup_snoc; [exact Hemails | exact (email_free_not_in _ _ He)].
Qed.

(** X6: submitting the same valid form a second time, after a run that
    stored its row, is refused as a duplicate (by name in actions.ts, by
    email in actions/signup.ts) and writes nothing: the table has gained
    one row in all. *)
Theorem signup_again_is_refused :
  (forall prevState prevState' formData w data,
      SignupSchema_safeParse email_pattern (signup_fields formData)
        = Zod.Success data ->
      db_available w ->
      name_taken (name data) (db w) = false ->
      email_taken (email data) (db w) = false ->
      let w1 := snd (signup email_pattern bcrypt_hash prevState formData w) in
      let again := signup email_pattern bcrypt_hash prevState' formData w1 in
      fst again = Returned {| errors := None;
                              message :=
                                Some "User already exists with this name." |}
      /\ db (snd again) = db w1
      /\ length (Db.users (db (snd again))) = S (length (Db.users (db w))))
  /\ (forall prevState prevState' formData w email password,
         SignupTs.SignupSchema_safeParse email_pattern
           (signup_ts_fields formData) = Zod.Success (email, password) ->
         db_available w ->
         email_taken email (db w) = false ->
         let w1 :=
           snd (SignupTs.signup email_pattern bcrypt_hash prevState formData w) in
         let again :=
           SignupTs.signup email_pattern bcrypt_hash prevState' formData w1 in
         fst again = Returned {| errors := None;
                                 message :=
                                   Some "User already exists with this email." |}
         /\ db (snd again) = db w1
         /\ length (Db.users (db (snd again))) = S (length (Db.users (db w)))).
Proof.
  split.
  - intros prevState prevState' formData w data Hparse Hup Hname Hemail.
    cbv zeta.
    rewrite (signup_fresh_run _ _ _ _ _ _ Hparse Hup Hname Hemail). simpl snd.
    rewrite (signup_name_taken_run _ _ prevState' _ _ _ Hparse).
    + simpl. rewrite length_app. simpl. rewrite Nat.add_1_r. auto.
    + unfold db_available. simpl. do 3 apply forallb_negb_tl. exact Hup.
    + simpl db. rewrite name_taken_with_user. unfold Db.name_is. simpl.
      rewrite String.eqb_refl. apply orb_true_r.
  - intros prevState prevState' formData w email password Hparse Hup Hemail.
    cbv zeta.
    rewrite (signup_ts_fresh_run _ _ _ _ _ _ _ Hparse Hup Hemail). simpl snd.
    rewrite (signup_ts_email_taken_run _ _ prevState' _ _ _ _ Hparse).
    + simpl. rewrite length_app. simpl. rewrite Nat.add_1_r. auto.
    + unfold db_available. simpl. do 2 apply forallb_negb_tl. exact Hup.
    + simpl db. rewrite email_taken_with_user. unfold Db.email_is. simpl.
      rewrite String.eqb_refl. apply orb_true_r.
Qed.

(** X7: the two variants share the table: after [signup] of actions.ts has
    stored a row, [signup] of actions/signup.ts refuses the same email, and
    the other way round (the row of actions/signup.ts has no name, so the
    name check of actions.ts passes and its email check refuses). *)
Theorem signup_variants_see_each_others_rows :
  (forall prevState prevState' formData formData' w data password',
      SignupSchema_safeParse email_pattern (signup_fields formData)
        = Zod.Success data ->
      SignupTs.SignupSchema_safeParse email_pattern
        (signup_ts_fields formData') = Zod.Success (email data, password') ->
      db_available w ->
      name_taken (name data) (db w) = false ->
      email_taken (email data) (db w) = false ->
      let w1 := snd (signup email_pattern bcrypt_hash prevState formData w) in
      let later :=
        SignupTs.signup email_pattern bcrypt_hash prevState' formData' w1 in
      fst later = Returned {| errors := None;
                              message :=
                                Some "User already exists with this email." |}
      /\ db (snd later) = db w1)
  /\ (forall prevState prevState' formData formData' w data password',
         SignupTs.SignupSchema_safeParse email_pattern
           (signup_ts_fields formData') = Zod.Success (email data, password') ->
         SignupSchema_safeParse email_pattern (signup_fields formData)
           = Zod.Success data ->
         db_available w ->
         name_taken (name data) (db w) = false ->
         email_taken (email data) (db w) = false ->
         let w1 :=
           snd (SignupTs.signup email_pattern bcrypt_hash prevState' formData' w)
         in
         let later :=
           signup email_pattern bcrypt_hash prevState formData w1 in
         fst later = Returned {| errors := None;
                                 message :=
                                   Some "User already exists with this email." |}
         /\ db (snd later) = db w1).
Proof.
  split.
  - intros prevState prevState' formData formData' w data password'
      Hparse Hparse' Hup Hname Hemail. cbv zeta.
    rewrite (signup_fresh_run _ _ _ _ _ _ Hparse Hup Hname Hemail). simpl snd.
    rewrite (signup_ts_email_taken_run _ _ prevState' _ _ _ _ Hparse').
    + simpl. auto.
    + unfold db_available. simpl. do 3 apply forallb_negb_tl. exact Hup.
    + simpl db. rewrite email_taken_with_user. unfold Db.email_is. simpl.
      rewrite String.eqb_refl. apply orb_true_r.
  - intros prevState prevState' formData formData' w data password'
      Hparse' Hparse Hup Hname Hemail. cbv zeta.
    rewrite (signup_ts_fresh_run _ _ _ _ _ _ _ Hparse' Hup Hemail). simpl snd.
    rewrite (signup_email_taken_run _ _ prevState _ _ _ Hparse).
    + simpl. auto.
    + unfold db_available. simpl. do 2 apply forallb_negb_tl. exact Hup.
    + simpl db. rewrite name_taken_with_user, Hname. reflexivity.
    + simpl db. rewrite email_taken_with_user. unfold Db.email_is. simpl.
      rewrite String.eqb_refl. apply orb_true_r.
Qed.

End EveryRun.

(** ** Every run of createInvoice *)

Lemma before_T_append (d t : string) :
  no_T d = true -> before_T (d ++ String "T" t) = d.
Proof.
  induction d as [| c d IH]; simpl; [reflexivity |].
  intro H. apply andb_true_iff in H. destruct H as [Hc Hd].
  apply negb_true_iff in Hc. rewrite Hc, (IH Hd). reflexivity.
Qed.

Lemma FormSchema_rejects (i : InvoiceInput) (fieldErrors : InvoiceErrors) :
  FormSchema_omit_id_data_safeParse i = Zod.Failure fieldErrors ->
  fieldErrors
  = {| err_customerId :=
         Zod.issues (Zod.string_ (Some "Please select a customer")
                       (in_customerId i));
       err_amount :=
         Zod.issues (Zod.coerce_number_gt PrimFloat.zero
                       "Please enter an amount greater than $0" (in_amount i));
       err_status :=
         Zod.issues (Zod.enum ["pending"; "paid"]
                       (Some "Please select an invoice status")
                       (in_status i)) |}.
Proof.
  unfold FormSchema_omit_id_data_safeParse.
  destruct (Zod.string_ _ _), (Zod.coerce_number_gt _ _ _), (Zod.enum _ _ _);
    simpl; intro H; try discriminate H; injection H as <-; reflexivity.
Qed.

Lemma createInvoice_invalid_run (prevState : State) (formData : FormData)
    (w : World) (fieldErrors : InvoiceErrors) :
  CreateInvoice_safeParse (create_fields formData) = Zod.Failure fieldErrors ->
  createInvoice prevState formData w
  = (Returned {| st_errors := Some fieldErrors;
                 st_message :=
                   Some "Missing Fields. Failed to Create invoice." |}, w).
Proof.
  intro Hparse. unfold createInvoice. fold (create_fields formData).
  rewrite Hparse. reflexivity.
Qed.

(** X8: [createInvoice] leaves by the redirect to '/dashboard/invoices'
    exactly when the form passes the schema and the INSERT is answered; it
    throws nothing else; it revalidates '/dashboard/invoices' once in that
    case and never otherwise; and when it does not redirect the store is
    unchanged. *)
Theorem createInvoice_redirects_exactly_on_success
    (prevState : State) (formData : FormData) (w : World) :
  let run := createInvoice prevState formData w in
  let stored :=
    Zod.success (CreateInvoice_safeParse (create_fields formData))
    && negb (hd false (faults w)) in
  (fst run = Threw (RedirectError "/dashboard/invoices") <-> stored = true)
  /\ (forall e, fst run = Threw e -> e = RedirectError "/dashboard/invoices")
  /\ revalidated (since w (snd run))
     = (if stored then ["/dashboard/invoices"] else [])
  /\ (stored = false -> db (snd run) = db w).
Proof.
  cbv zeta.
  destruct (CreateInvoice_safeParse (create_fields formData))
    as [data | fieldErrors] eqn:Hparse.
  - rewrite (createInvoice_valid_run _ _ _ _ Hparse). unfold since.
    destruct (hd false (faults w)); simpl; rewrite skipn_length_app; simpl.
    + repeat split; try discriminate; auto.
    + repeat split; try discriminate; auto.
      intros e H. injection H as <-. reflexivity.
  - rewrite (createInvoice_invalid_run _ _ _ _ Hparse). unfold since. simpl.
    rewrite skipn_length_self. simpl.
    repeat split; try discriminate; auto.
Qed.

(** X9: for every form and world, [createInvoice] leaves [users] alone and
    either leaves the store unchanged or appends one invoice: the customer
    id and the status are the submitted strings, the amount is
    [Number(amount) * 100], the date is the clock's up to its first 'T'. *)
Theorem createInvoice_stores_the_submitted_fields
    (prevState : State) (formData : FormData) (w : World) :
  let w' := snd (createInvoice prevState formData w) in
  Db.users (db w') = Db.users (db w)
  /\ (db w' = db w
      \/ exists c s,
           get "customerId" formData = JStr c
           /\ get "status" formData = JStr s
           /\ db w' = with_invoice (db w) c
                        (Number.of_value (get "amount" formData) * 100)%float
                        s (before_T (now w))).
Proof.
  cbv zeta.
  destruct (CreateInvoice_safeParse (create_fields formData))
    as [data | fieldErrors] eqn:Hparse.
  - rewrite (createInvoice_valid_run _ _ _ _ Hparse).
    destruct (FormSchema_succeeds _ _ Hparse) as [Hc [Ha [_ [Hs _]]]].
    simpl in Hc, Ha, Hs.
    destruct (hd false (faults w)); simpl; [auto |].
    split; [reflexivity |]. right.
    exists (customerId data), (status data). rewrite <- Ha. auto.
  - rewrite (createInvoice_invalid_run _ _ _ _ Hparse). simpl. auto.
Qed.

(** X10: when the clock reads [date ++ "T" ++ time] with no 'T' in [date]
    (as [toISOString] prints it), the one statement a valid [createInvoice]
    issues carries [date] as the invoice date. *)
Theorem createInvoice_dates_the_invoice_by_the_clock
    (prevState : State) (formData : FormData) (w : World) (data : InvoiceData)
    (date time : string) :
  CreateInvoice_safeParse (create_fields formData) = Zod.Success data ->
  now w = date ++ String "T" time ->
  no_T date = true ->
  statements (since w (snd (createInvoice prevState formData w)))
  = [Db.InsertInvoices (customerId data) (amount data * 100)%float
       (status data) date].
Proof.
  intros Hparse Hnow HnoT.
  rewrite (createInvoice_valid_run _ _ _ _ Hparse). unfold since.
  rewrite Hnow, (before_T_append _ _ HnoT).
  destruct (hd false (faults w)); simpl; rewrite skipn_length_app; reflexivity.
Qed.

(** ** What the schemas accept *)

Lemma string_reported (custom : option string) (v : JsVal) :
  reported (Zod.issues (Zod.string_ custom v)) = negb (is_string v).
Proof. destruct v; reflexivity. Qed.

Lemma string_min_reported (n : nat) (msg : string) (v : JsVal) :
  reported (Zod.issues (Zod.string_min n msg v)) = negb (string_of_at_least n v).
Proof.
  destruct v as [| | s |]; try reflexivity.
  unfold Zod.string_min, string_of_at_least. simpl.
  rewrite Nat.ltb_antisym. destruct (Nat.leb n (String.length s)); reflexivity.
Qed.

Lemma string_email_reported (pattern : string -> bool) (msg : string)
    (v : JsVal) :
  reported (Zod.issues (Zod.string_email pattern msg v))
  = negb (matching_string pattern v).
Proof.
  destruct v as [| | s |]; try reflexivity.
  unfold Zod.string_email. simpl. destruct (pattern s); reflexivity.
Qed.

Lemma coerce_number_gt_reported (msg : string) (v : JsVal) :
  reported (Zod.issues (Zod.coerce_number_gt PrimFloat.zero msg v))
  = negb (positive_number v).
Proof.
  unfold Zod.coerce_number_gt, positive_number.
  destruct (PrimFloat.is_nan (Number.of_value v)); [reflexivity |].
  destruct (PrimFloat.leb (Number.of_value v) PrimFloat.zero); reflexivity.
Qed.

Lemma enum_reported (custom : option string) (v : JsVal) :
  reported (Zod.issues (Zod.enum ["pending"; "paid"] custom v))
  = negb (is_status_value v).
Proof.
  destruct v as [| | s |]; try reflexivity.
  unfold Zod.enum, is_status_value. simpl existsb. rewrite orb_false_r.
  destruct (String.eqb s "pending" || String.eqb s "paid"); reflexivity.
Qed.

Lemma FormSchema_success (i : InvoiceInput) :
  Zod.success (FormSchema_omit_id_data_safeParse i)
  = is_string (in_customerId i) && positive_number (in_amount i)
    && is_status_value (in_status i).
Proof.
  pose proof (string_reported (Some "Please select a customer")
                (in_customerId i)) as Hc.
  pose proof (coerce_number_gt_reported
                "Please enter an amount greater than $0" (in_amount i)) as Ha.
  pose proof (enum_reported (Some "Please select an invoice status")
                (in_status i)) as Hs.
  unfold FormSchema_omit_id_data_safeParse.
  destruct (Zod.string_ _ _), (Zod.coerce_number_gt _ _ _), (Zod.enum _ _ _);
    simpl in *;
    destruct (is_string _), (positive_number _), (is_status_value _);
    simpl in *; congruence.
Qed.

(** X11: [CreateInvoice] accepts a form exactly when 'customerId' holds a
    string (any string, the empty one included), [Number] of 'amount' is a
    number above zero, and 'status' is "pending" or "paid"; [Updateinvoice]
    as [updateInvoice] feeds it accepts exactly the same with 'custmerId'
    in the place of 'customerId'. *)
Theorem invoice_schema_accepts_exactly (formData : FormData) :
  Zod.success (CreateInvoice_safeParse (create_fields formData))
  = is_string (get "customerId" formData)
    && positive_number (get "amount" formData)
    && is_status_value (get "status" formData)
  /\ Zod.success (Updateinvoice_safeParse (update_fields formData))
     = is_string (get "custmerId" formData)
       && positive_number (get "amount" formData)
       && is_status_value (get "status" formData).
Proof.
  split; apply FormSchema_success.
Qed.

Section Acceptance.

Variable email_pattern : string -> bool.
Variable bcrypt_hash : string -> nat -> nat -> string.

(** X12: [SignupSchema] of actions.ts accepts a form exactly when 'name'
    is a string of at least 1 character, 'email' a string the email pattern
    accepts and 'password' a string of at least 6 characters; the one of
    actions/signup.ts asks the same of 'email' and 'password' and nothing of
    'name'. *)
Theorem signup_schema_accepts_exactly (formData : FormData) :
  Zod.success (SignupSchema_safeParse email_pattern (signup_fields formData))
  = string_of_at_least 1 (get "name" formData)
    && matching_string email_pattern (get "email" formData)
    && string_of_at_least 6 (get "password" formData)
  /\ Zod.success (SignupTs.SignupSchema_safeParse email_pattern
                    (signup_ts_fields formData))
     = matching_string email_pattern (get "email" formData)
       && string_of_at_least 6 (get "password" formData).
Proof.
  pose proof (string_min_reported 1 "Name is required" (get "name" formData))
    as Hn.
  pose proof (string_email_reported email_pattern "Invalid email address"
                (get "email" formData)) as He.
  pose proof (string_min_reported 6
                "Password must be at least 6 characters long"
                (get "password" formData)) as Hp.
  pose proof (string_min_reported 6 "Password must be at least 6 characters"
                (get "password" formData)) as Hp'.
  unfold SignupSchema_safeParse, SignupTs.SignupSchema_safeParse. simpl.
  destruct (Zod.string_min 1 _ _), (Zod.string_email _ _ _),
    (Zod.string_min 6 "Password must be at least 6 characters long" _),
    (Zod.string_min 6 "Password must be at least 6 characters" _);
    simpl in *;
    destruct (string_of_at_least 1 _), (matching_string _ _),
      (string_of_at_least 6 _); simpl in *; split; congruence.
Qed.

(** X13: whenever [signup] (either variant) or [createInvoice] returns an
    'errors' object, the object has a key for exactly the fields that fail
    their check, all of them and no other; [signup] of actions/signup.ts
    never reports 'name'. *)
Theorem rejection_lists_every_field_at_fault :
  (forall prevState formData w st fieldErrors,
      fst (signup email_pattern bcrypt_hash prevState formData w) = Returned st ->
      errors st = Some fieldErrors ->
      reported (err_name fieldErrors)
      = negb (string_of_at_least 1 (get "name" formData))
      /\ reported (err_email fieldErrors)
         = negb (matching_string email_pattern (get "email" formData))
      /\ reported (err_password fieldErrors)
         = negb (string_of_at_least 6 (get "password" formData)))
  /\ (forall prevState formData w st fieldErrors,
         fst (SignupTs.signup email_pattern bcrypt_hash prevState formData w)
         = Returned st ->
         errors st = Some fieldErrors ->
         reported (err_name fieldErrors) = false
         /\ reported (err_email fieldErrors)
            = negb (matching_string email_pattern (get "email" formData))
         /\ reported (err_password fieldErrors)
            = negb (string_of_at_least 6 (get "password" formData)))
  /\ (forall prevState formData w st fieldErrors,
         fst (createInvoice prevState formData w) = Returned st ->
         st_errors st = Some fieldErrors ->
         reported (err_customerId fieldErrors)
         = negb (is_string (get "customerId" formData))
         /\ reported (err_amount fieldErrors)
            = negb (positive_number (get "amount" formData))
         /\ reported (err_status fieldErrors)
            = negb (is_status_value (get "status" formData))).
Proof.
  split; [| split].
  - intros prevState formData w st fieldErrors Hrun Herr.
    destruct (SignupSchema_safeParse email_pattern (signup_fields formData))
      as [data | fe] eqn:Hparse.
    + destruct (signup email_pattern bcrypt_hash prevState formData w)
        as [r w'] eqn:Hw. simpl in Hrun. subst r.
      destruct (signup_valid_returns_message_only email_pattern bcrypt_hash
                  prevState formData data Hparse w st w' Hw) as [Hnone _].
      congruence.
    + unfold signup in Hrun. fold (signup_fields formData) in Hrun.
      rewrite Hparse in Hrun. simpl in Hrun. injection Hrun as <-.
      simpl in Herr. injection Herr as <-.
      unfold SignupSchema_safeParse in Hparse. simpl in Hparse.
      rewrite <- string_min_reported with (msg := "Name is required").
      rewrite <- string_email_reported with (msg := "Invalid email address").
      rewrite <- string_min_reported
        with (msg := "Password must be at least 6 characters long").
      destruct (Zod.string_min 1 _ _), (Zod.string_email _ _ _),
        (Zod.string_min 6 _ _); try discriminate Hparse;
        injection Hparse as <-; auto.
  - intros prevState formData w st fieldErrors Hrun Herr.
    destruct (SignupTs.SignupSchema_safeParse email_pattern
                (signup_ts_fields formData)) as [data | fe] eqn:Hparse.
    + destruct (SignupTs.signup email_pattern bcrypt_hash prevState formData w)
        as [r w'] eqn:Hw. simpl in Hrun. subst r.
      destruct (signup_ts_valid_returns_message_only email_pattern bcrypt_hash
                  prevState formData data Hparse w st w' Hw) as [Hnone _].
      congruence.
    + unfold SignupTs.signup in Hrun. fold (signup_ts_fields formData) in Hrun.
      rewrite Hparse in Hrun. simpl in Hrun. injection Hrun as <-.
      simpl in Herr. injection Herr as <-.
      unfold SignupTs.SignupSchema_safeParse in Hparse. simpl in Hparse.
      rewrite <- string_email_reported with (msg := "Invalid email address").
      rewrite <- string_min_reported
        with (msg := "Password must be at least 6 characters").
      destruct (Zod.string_email _ _ _), (Zod.string_min 6 _ _);
        try discriminate Hparse; injection Hparse as <-; auto.
  - intros prevState formData w st fieldErrors Hrun Herr.
    destruct (CreateInvoice_safeParse (create_fields formData))
      as [data | fe] eqn:Hparse.
    + rewrite (createInvoice_valid_run _ _ _ _ Hparse) in Hrun.
      destruct (hd false (faults w)); simpl in Hrun; [| discriminate Hrun].
      injection Hrun as <-. discriminate Herr.
    + rewrite (createInvoice_invalid_run _ _ _ _ Hparse) in Hrun.
      simpl in Hrun. injection Hrun as <-. simpl in Herr.
      injection Herr as <-.
      rewrite (FormSchema_rejects _ _ Hparse). simpl.
      rewrite string_reported, coerce_number_gt_reported, enum_reported. auto.
Qed.

(** X15: [signup] of actions.ts rejects an empty name with
    'Name is required' and a form without 'name' with an error on 'name';
    the world is untouched. *)
Theorem signup_blank_name_is_rejected
    (prevState : SignupState) (formData : FormData) (w : World) :
  (get "name" formData = JStr "" ->
   exists fieldErrors,
     signup email_pattern bcrypt_hash prevState formData w
     = (Returned {| errors := Some fieldErrors;
                    message := Some "Invalid fields." |}, w)
     /\ err_name fieldErrors = Some ["Name is required"])
  /\ (has_key "name" formData = false ->
      exists fieldErrors,
        signup email_pattern bcrypt_hash prevState formData w
        = (Returned {| errors := Some fieldErrors;
                       message := Some "Invalid fields." |}, w)
        /\ err_name fieldErrors <> None).
Proof.
  split.
  - intro Hempty. eexists. split.
    + unfold signup. rewrite SignupSchema_fails; [reflexivity |].
      left. simpl. rewrite Hempty. discriminate.
    + simpl. rewrite Hempty. reflexivity.
  - intro Hkey. pose proof (get_missing _ _ Hkey) as Hnull.
    eexists. split.
    + unfold signup. rewrite SignupSchema_fails; [reflexivity |].
      left. simpl. rewrite Hnull. discriminate.
    + simpl. rewrite Hnull. discriminate.
Qed.

End Acceptance.

(** X14: a form without 'amount', or with an empty one, is rejected by
    [createInvoice] with 'Please enter an amount greater than $0' (the
    blank coerces to 0), and a form without 'status' with 'Please select an
    invoice status'; the world is untouched. *)
Theorem createInvoice_blank_fields_are_rejected
    (prevState : State) (formData : FormData) (w : World) :
  (has_key "amount" formData = false \/ get "amount" formData = JStr "" ->
   exists fieldErrors,
     createInvoice prevState formData w
     = (Returned {| st_errors := Some fieldErrors;
                    st_message :=
                      Some "Missing Fields. Failed to Create invoice." |}, w)
     /\ err_amount fieldErrors
        = Some ["Please enter an amount greater than $0"])
  /\ (has_key "status" formData = false ->
      exists fieldErrors,
        createInvoice prevState formData w
        = (Returned {| st_errors := Some fieldErrors;
                       st_message :=
                         Some "Missing Fields. Failed to Create invoice." |}, w)
        /\ err_status fieldErrors = Some ["Please select an invoice status"]).
Proof.
  split.
  - intro Hblank.
    assert (Hzero : amount_not_positive (get "amount" formData)).
    { destruct Hblank as [Hkey | Hempty].
      - rewrite (get_missing _ _ Hkey). reflexivity.
      - rewrite Hempty. reflexivity. }
    eexists. split.
    + unfold createInvoice, CreateInvoice_safeParse.
      rewrite FormSchema_fails; [reflexivity |].
      right. left. simpl. rewrite (coerce_number_gt_rejects _ _ Hzero).
      discriminate.
    + simpl. rewrite (coerce_number_gt_rejects _ _ Hzero). reflexivity.
  - intro Hkey. pose proof (get_missing _ _ Hkey) as Hnull.
    eexists. split.
    + unfold createInvoice, CreateInvoice_safeParse.
      rewrite FormSchema_fails; [reflexivity |].
      right. right. simpl. rewrite Hnull. discriminate.
    + simpl. rewrite Hnull. reflexivity.
Qed.

(** ** updateInvoice and authenticate *)

(** X16: when the form passes the schema (the customer id being under
    'custmerId'), [updateInvoice] issues exactly one statement, the UPDATE
    carrying that customer id, the amount times 100, the status and the id
    it was called with; in no run does it log anything or issue an
    INSERT. *)
Theorem updateInvoice_sends_one_update_and_logs_nothing
    (id : string) (prevState : State) (formData : FormData) (w : World) :
  let w' := snd (updateInvoice id prevState formData w) in
  (forall data,
      Updateinvoice_safeParse (update_fields formData) = Zod.Success data ->
      get "custmerId" formData = JStr (customerId data)
      /\ statements (since w w')
         = [Db.UpdateInvoice (customerId data) (amount data * 100)%float
              (status data) id])
  /\ logged (since w w') = []
  /\ inserts (since w w') = [].
Proof.
  cbv zeta.
  destruct (Updateinvoice_safeParse (update_fields formData))
    as [data | fieldErrors] eqn:Hparse.
  - rewrite (updateInvoice_valid_run _ _ _ _ _ Hparse). unfold since. simpl.
    rewrite skipn_length_app. simpl.
    split; [| auto].
    intros data' H. injection H as <-.
    destruct (FormSchema_succeeds _ _ Hparse) as [Hc _]. simpl in Hc. auto.
  - unfold updateInvoice. fold (update_fields formData). rewrite Hparse.
    unfold since. simpl. rewrite skipn_length_self.
    split; [discriminate | auto].
Qed.

Section Transparency.

Variable signIn : string -> FormData -> M unit.

(** X17: [authenticate] leaves the world exactly as [signIn] left it; it
    never throws an [AuthError]; it returns [undefined] when [signIn]
    returns, and otherwise returns nothing but 'Invalid credentials' or
    'Something went wrong'. *)
Theorem authenticate_adds_nothing_to_signIn
    (prevState : option string) (formData : FormData) (w : World) :
  let run := authenticate signIn prevState formData w in
  snd run = snd (signIn "credentials" formData w)
  /\ (forall type, fst run <> Threw (AuthError type))
  /\ (fst (signIn "credentials" formData w) = Returned tt ->
      fst run = Returned None)
  /\ (forall r, fst run = Returned r ->
        r = None \/ r = Some "Invalid credentials"
        \/ r = Some "Something went wrong").
Proof.
  cbv zeta. unfold authenticate, try_catch, bind.
  destruct (signIn "credentials" formData w) as [[[] | e] w1]; simpl.
  - repeat split; try discriminate; auto.
    intros r H. injection H as <-. auto.
  - destruct e as [m | type | url | m | d]; simpl;
      try (unfold throw; simpl; repeat split; try discriminate; auto;
           intros r H; discriminate H).
    destruct (String.eqb type "CredentialsSignin"); unfold ret; simpl;
      repeat split; try discriminate; auto;
      intros r H; injection H as <-; auto.
Qed.

End Transparency.

(** ** These theorems on concrete submissions *)

Lemma signup_failure_writes_nothing_witness :
  signup_hits_a_fault (negb (name_taken "alice" (db Scenario.world_failing)))
    (negb (email_taken "alice@example.com" (db Scenario.world_failing)))
    (faults Scenario.world_failing) = true
  /\ fst (signup Stub.email_pattern Stub.hash Stub.no_signup_state
            Stub.alice_signs_up Scenario.world_failing)
     = Returned database_error
  /\ db (snd (signup Stub.email_pattern Stub.hash Stub.no_signup_state
                Stub.alice_signs_up Scenario.world_failing))
     = db Scenario.world_failing.
Proof.
  destruct (proj1 (signup_failure_writes_nothing Stub.email_pattern Stub.hash)
              Stub.no_signup_state Stub.alice_signs_up Scenario.world_failing
              alice_data eq_refl eq_refl) as [Hret [Hdb _]].
  split; [reflexivity |]. split; [exact Hret | exact Hdb].
Defined.

Lemma signup_ts_success_message_is_truthful_witness :
  fst (SignupTs.signup Stub.email_pattern Stub.hash Stub.no_signup_state
         Stub.alice_signs_up Stub.world) = Returned created
  /\ exists e p,
      get "email" Stub.alice_signs_up = JStr e
      /\ get "password" Stub.alice_signs_up = JStr p
      /\ db (snd (SignupTs.signup Stub.email_pattern Stub.hash
                    Stub.no_signup_state Stub.alice_signs_up Stub.world))
         = with_user (db Stub.world)
             {| Db.user_name := None;
                Db.user_email := e;
                Db.user_password := Stub.hash p 10 (entropy Stub.world) |}.
Proof.
  split; [reflexivity |].
  exact (proj1 (signup_ts_success_message_is_truthful Stub.email_pattern
                  Stub.hash Stub.no_signup_state Stub.alice_signs_up
                  Stub.world) eq_refl).
Defined.

Lemma signup_keeps_names_and_emails_unique_witness :
  (NoDup (names (db Stub.world_with_alice))
   /\ NoDup (emails (db Stub.world_with_alice)))
  /\ NoDup (emails (db (snd (SignupTs.signup Stub.email_pattern Stub.hash
                               Stub.no_signup_state Scenario.blank_name
                               Stub.world_with_alice)))).
Proof.
  assert (Hnames : NoDup (names (db Stub.world_with_alice))).
  { simpl. constructor; [intros [] | constructor]. }
  assert (Hemails : NoDup (emails (db Stub.world_with_alice))).
  { simpl. constructor; [intros [] | constructor]. }
  split; [split; assumption |].
  exact (proj2 (proj2 (signup_keeps_names_and_emails_unique Stub.email_pattern
                         Stub.hash)
                  Stub.no_signup_state Scenario.blank_name
                  Stub.world_with_alice Hnames Hemails)).
Defined.

Lemma signup_again_is_refused_witness :
  (db_available Stub.world
   /\ name_taken "alice" (db Stub.world) = false
   /\ email_taken "alice@example.com" (db Stub.world) = false)
  /\ fst (signup Stub.email_pattern Stub.hash Stub.no_signup_state
            Stub.alice_signs_up
            (snd (signup Stub.email_pattern Stub.hash Stub.no_signup_state
                    Stub.alice_signs_up Stub.world)))
     = Returned {| errors := None;
                   message := Some "User already exists with this name." |}.
Proof.
  split; [repeat split |].
  exact (proj1 (proj1 (signup_again_is_refused Stub.email_pattern Stub.hash)
                  Stub.no_signup_state Stub.no_signup_state
                  Stub.alice_signs_up Stub.world alice_data
                  eq_refl eq_refl eq_refl eq_refl)).
Defined.

Lemma signup_variants_see_each_others_rows_witness :
  (db_available Stub.world
   /\ name_taken "alice" (db Stub.world) = false
   /\ email_taken "alice@example.com" (db Stub.world) = false)
  /\ fst (SignupTs.signup Stub.email_pattern Stub.hash Stub.no_signup_state
            Scenario.alice_by_email
            (snd (signup Stub.email_pattern Stub.hash Stub.no_signup_state
                    Stub.alice_signs_up Stub.world)))
     = Returned {| errors := None;
                   message := Some "User already exists with this email." |}
  /\ fst (signup Stub.email_pattern Stub.hash Stub.no_signup_state
            Stub.alice_signs_up
            (snd (SignupTs.signup Stub.email_pattern Stub.hash
                    Stub.no_signup_state Scenario.alice_by_email Stub.world)))
     = Returned {| errors := None;
                   message := Some "User already exists with this email." |}.
Proof.
  destruct (signup_variants_see_each_others_rows Stub.email_pattern Stub.hash)
    as [Hfirst Hsecond].
  split; [repeat split |]. split.
  - exact (proj1 (Hfirst Stub.no_signup_state Stub.no_signup_state
                    Stub.alice_signs_up Scenario.alice_by_email Stub.world
                    alice_data "hunter22" eq_refl eq_refl eq_refl eq_refl eq_refl)).
  - exact (proj1 (Hsecond Stub.no_signup_state Stub.no_signup_state
                    Stub.alice_signs_up Scenario.alice_by_email Stub.world
                    alice_data "hunter22" eq_refl eq_refl eq_refl eq_refl eq_refl)).
Defined.

Lemma createInvoice_redirects_exactly_on_success_witness :
  Zod.success (CreateInvoice_safeParse (create_fields Stub.invoice_12_50))
  && negb (hd false (faults Stub.world)) = true
  /\ fst (createInvoice Stub.no_state Stub.invoice_12_50 Stub.world)
     = Threw (RedirectError "/dashboard/invoices")
  /\ db (snd (createInvoice Stub.no_state Stub.invoice_12_50
                Scenario.world_failing))
     = db Scenario.world_failing.
Proof.
  split; [reflexivity |]. split.
  - exact (proj2 (proj1 (createInvoice_redirects_exactly_on_success
                           Stub.no_state Stub.invoice_12_50 Stub.world))
             eq_refl).
  - exact (proj2 (proj2 (proj2 (createInvoice_redirects_exactly_on_success
                                  Stub.no_state Stub.invoice_12_50
                                  Scenario.world_failing)))
             eq_refl).
Defined.

Lemma createInvoice_dates_the_invoice_by_the_clock_witness :
  (now Stub.world = "2024-05-06" ++ String "T" "07:08:09.000Z"
   /\ no_T "2024-05-06" = true)
  /\ statements (since Stub.world
                   (snd (createInvoice Stub.no_state Stub.invoice_12_50
                           Stub.world)))
     = [Db.InsertInvoices "c1" 1250%float "pending" "2024-05-06"].
Proof.
  split; [split; reflexivity |].
  exact (createInvoice_dates_the_invoice_by_the_clock Stub.no_state
           Stub.invoice_12_50 Stub.world
           {| customerId := "c1"; amount := 12.5%float; status := "pending" |}
           "2024-05-06" "07:08:09.000Z" eq_refl eq_refl eq_refl).
Defined.

Lemma rejection_lists_every_field_at_fault_witness :
  fst (signup Stub.email_pattern Stub.hash Stub.no_signup_state Stub.bad_signup
         Stub.world)
  = Returned
      {| errors :=
           Some {| err_name := None;
                   err_email := Some ["Invalid email address"];
                   err_password :=
                     Some ["Password must be at least 6 characters long"] |};
         message := Some "Invalid fields." |}
  /\ reported (Some ["Invalid email address"])
     = negb (matching_string Stub.email_pattern (get "email" Stub.bad_signup)).
Proof.
  split; [reflexivity |].
  exact (proj1 (proj2 (proj1 (rejection_lists_every_field_at_fault
                                Stub.email_pattern Stub.hash)
                         Stub.no_signup_state Stub.bad_signup Stub.world
                         _ _ eq_refl eq_refl))).
Defined.

Lemma createInvoice_blank_fields_are_rejected_witness :
  (has_key "amount" Scenario.blank_invoice = false
   /\ has_key "status" Scenario.blank_invoice = false)
  /\ exists fieldErrors,
      createInvoice Stub.no_state Scenario.blank_invoice Stub.world
      = (Returned {| st_errors := Some fieldErrors;
                     st_message :=
                       Some "Missing Fields. Failed to Create invoice." |},
         Stub.world)
      /\ err_amount fieldErrors
         = Some ["Please enter an amount greater than $0"].
Proof.
  split; [split; reflexivity |].
  exact (proj1 (createInvoice_blank_fields_are_rejected Stub.no_state
                  Scenario.blank_invoice Stub.world)
           (or_introl eq_refl)).
Defined.

Lemma signup_blank_name_is_rejected_witness :
  get "name" Scenario.blank_name = JStr ""
  /\ exists fieldErrors,
      signup Stub.email_pattern Stub.hash Stub.no_signup_state
        Scenario.blank_name Stub.world
      = (Returned {| errors := Some fieldErrors;
                     message := Some "Invalid fields." |}, Stub.world)
      /\ err_name fieldErrors = Some ["Name is required"].
Proof.
  split; [reflexivity |].
  exact (proj1 (signup_blank_name_is_rejected Stub.email_pattern Stub.hash
                  Stub.no_signup_state Scenario.blank_name Stub.world)
           eq_refl).
Defined.

Lemma updateInvoice_sends_one_update_and_logs_nothing_witness :
  Updateinvoice_safeParse (update_fields Scenario.misspelled_invoice)
  = Zod.Success {| customerId := "c1"; amount := 12.5%float; status := "paid" |}
  /\ statements (since Stub.world
                   (snd (updateInvoice "7" Stub.no_state
                           Scenario.misspelled_invoice Stub.world)))
     = [Db.UpdateInvoice "c1" 1250%float "paid" "7"].
Proof.
  split; [reflexivity |].
  exact (proj2 (proj1 (updateInvoice_sends_one_update_and_logs_nothing "7"
                         Stub.no_state Scenario.misspelled_invoice Stub.world)
                  _ eq_refl)).
Defined.

Lemma authenticate_adds_nothing_to_signIn_witness :
  fst (Scenario.signIn_returns "credentials" [] Stub.world) = Returned tt
  /\ fst (authenticate Scenario.signIn_returns None [] Stub.world)
     = Returned None.
Proof.
  split; [reflexivity |].
  exact (proj1 (proj2 (proj2 (authenticate_adds_nothing_to_signIn
                                Scenario.signIn_returns None [] Stub.world)))
           eq_refl).
Defined.

(** ** The shape of what the handlers return, in full *)

Section ErrorsKey.

Variable email_pattern : string -> bool.
Variable bcrypt_hash : string -> nat -> nat -> string.

(** C10: for [signup] (both variants), [createInvoice] and [updateInvoice]:
    a submission the schema rejects makes the handler return an object
    with an 'errors' key and a message; every object returned carries a
    message, and carries 'errors' exactly when the schema rejected the
    submission; and past the schema, a duplicate user (the database
    answering) and a statement the database fails both make the handler
    return, not throw, an object with a message and no 'errors': the
    'already exists' messages, and the handler's 'Database Error' one. *)
Theorem errors_key_tells_validation_failures :
  (forall prevState formData w,
      let parsed :=
        SignupSchema_safeParse email_pattern (signup_fields formData) in
      let run := signup email_pattern bcrypt_hash prevState formData w in
      (Zod.success parsed = false ->
       exists fieldErrors m,
         run = (Returned {| errors := Some fieldErrors; message := Some m |}, w))
      /\ (forall st, fst run = Returned st ->
            message st <> None
            /\ (errors st <> None <-> Zod.success parsed = false))
      /\ (forall data, parsed = Zod.Success data ->
            (db_available w ->
             name_taken (name data) (db w) = true
             \/ email_taken (email data) (db w) = true ->
             fst run = Returned {| errors := None;
                                   message :=
                                     Some "User already exists with this name." |}
             \/ fst run = Returned {| errors := None;
                                      message :=
                                        Some "User already exists with this email." |})
            /\ (signup_hits_a_fault (negb (name_taken (name data) (db w)))
                  (negb (email_taken (email data) (db w))) (faults w) = true ->
                fst run = Returned {| errors := None;
                                      message :=
                                        Some "Database Error: Failed to create user." |})))
  /\ (forall prevState formData w,
         let parsed :=
           SignupTs.SignupSchema_safeParse email_pattern
             (signup_ts_fields formData) in
         let run :=
           SignupTs.signup email_pattern bcrypt_hash prevState formData w in
         (Zod.success parsed = false ->
          exists fieldErrors m,
            run = (Returned {| errors := Some fieldErrors; message := Some m |},
                   w))
         /\ (forall st, fst run = Returned st ->
               message st <> None
               /\ (errors st <> None <-> Zod.success parsed = false))
         /\ (forall email password, parsed = Zod.Success (email, password) ->
               (db_available w -> email_taken email (db w) = true ->
                fst run = Returned {| errors := None;
                                      message :=
                                        Some "User already exists with this email." |})
               /\ (signup_ts_hits_a_fault (negb (email_taken email (db w)))
                     (faults w) = true ->
                   fst run = Returned {| errors := None;
                                         message :=
                                           Some "Database Error: Failed to create user." |})))
  /\ (forall prevState formData w,
         let parsed := CreateInvoice_safeParse (create_fields formData) in
         let run := createInvoice prevState formData w in
         (Zod.success parsed = false ->
          exists fieldErrors m,
            run = (Returned {| st_errors := Some fieldErrors;
                               st_message := Some m |}, w))
         /\ (forall st, fst run = Returned st ->
               st_message st <> None
               /\ (st_errors st <> None <-> Zod.success parsed = false))
         /\ (Zod.success parsed = true -> hd false (faults w) = true ->
             fst run = Returned {| st_errors := None;
                                   st_message :=
                                     Some "Database Error: Failed to Create Invoice." |}))
  /\ (forall id prevState formData w,
         let parsed := Updateinvoice_safeParse (update_fields formData) in
         let run := updateInvoice id prevState formData w in
         (Zod.success parsed = false ->
          exists fieldErrors m,
            run = (Returned {| st_errors := Some fieldErrors;
                               st_message := Some m |}, w))
         /\ (forall st, fst run = Returned st ->
               st_message st <> None
               /\ (st_errors st <> None <-> Zod.success parsed = false))
         /\ (Zod.success parsed = true -> hd false (faults w) = true ->
             fst run = Returned {| st_errors := None;
                                   st_message :=
                                     Some "Database Error: Failed to Update Invoice" |})).
Proof.
  destruct (returned_object_has_errors_iff_rejected email_pattern bcrypt_hash)
    as [Hsignup [Hts [Hcreate Hupdate]]].
  split; [| split; [| split]].
  - intros prevState formData w. cbv zeta.
    destruct (Hsignup prevState formData w) as [Hrej Hret].
    split; [exact Hrej |]. split; [exact Hret |].
    intros data Hparse. split.
    + intros Hup Htaken.
      destruct (name_taken (name data) (db w)) eqn:Hname.
      * left. rewrite (signup_name_taken_run _ _ _ _ _ _ Hparse Hup Hname).
        reflexivity.
      * destruct Htaken as [Habs | Hemail]; [discriminate Habs |].
        right.
        rewrite (signup_email_taken_run _ _ _ _ _ _ Hparse Hup Hname Hemail).
        reflexivity.
    + rewrite (signup_valid_run _ _ _ _ _ _ Hparse). cbv zeta.
      unfold signup_hits_a_fault, database_error.
      destruct (hd false (faults w)), (name_taken (name data) (db w)),
        (hd false (tl (faults w))), (email_taken (email data) (db w)),
        (hd false (tl (tl (faults w)))); simpl; try discriminate;
        reflexivity.
  - intros prevState formData w. cbv zeta.
    destruct (Hts prevState formData w) as [Hrej Hret].
    split; [exact Hrej |]. split; [exact Hret |].
    intros email password Hparse. split.
    + intros Hup Hemail.
      rewrite (signup_ts_email_taken_run _ _ _ _ _ _ _ Hparse Hup Hemail).
      reflexivity.
    + rewrite (signup_ts_valid_run _ _ _ _ _ _ _ Hparse). cbv zeta.
      unfold signup_ts_hits_a_fault, database_error.
      destruct (hd false (faults w)), (email_taken email (db w)),
        (hd false (tl (faults w))); simpl; try discriminate; reflexivity.
  - intros prevState formData w. cbv zeta.
    destruct (Hcreate prevState formData w) as [Hrej Hret].
    split; [exact Hrej |]. split; [exact Hret |].
    destruct (CreateInvoice_safeParse (create_fields formData))
      as [data | fieldErrors] eqn:Hparse; [| discriminate].
    intros _ Hfault.
    rewrite (createInvoice_valid_run _ _ _ _ Hparse), Hfault. reflexivity.
  - intros id prevState formData w. cbv zeta.
    destruct (Hupdate id prevState formData w) as [Hrej Hret].
    split; [exact Hrej |]. split; [exact Hret |].
    destruct (Updateinvoice_safeParse (update_fields formData))
      as [data | fieldErrors] eqn:Hparse; [| discriminate].
    intros _ Hfault.
    rewrite (updateInvoice_valid_run _ _ _ _ _ Hparse). reflexivity.
Qed.

End ErrorsKey.

Lemma errors_key_tells_validation_failures_witness :
  (Zod.success (SignupSchema_safeParse Stub.email_pattern
                  (signup_fields Stub.bad_signup)) = false
   /\ exists fieldErrors m,
       signup Stub.email_pattern Stub.hash Stub.no_signup_state Stub.bad_signup
         Stub.world
       = (Returned {| errors := Some fieldErrors; message := Some m |},
          Stub.world))
  /\ ((db_available Stub.world_with_alice
       /\ name_taken "alice" (db Stub.world_with_alice) = true)
      /\ fst (signup Stub.email_pattern Stub.hash Stub.no_signup_state
                Stub.alice_signs_up Stub.world_with_alice)
         = Returned {| errors := None;
                       message := Some "User already exists with this name." |})
  /\ (signup_ts_hits_a_fault
        (negb (email_taken "alice@example.com" (db Scenario.world_failing)))
        (faults Scenario.world_failing) = true
      /\ fst (SignupTs.signup Stub.email_pattern Stub.hash
                Stub.no_signup_state Stub.alice_signs_up Scenario.world_failing)
         = Returned {| errors := None;
                       message :=
                         Some "Database Error: Failed to create user." |})
  /\ ((Zod.success (CreateInvoice_safeParse (create_fields Stub.invoice_12_50))
       = true
       /\ hd false (faults Scenario.world_failing) = true)
      /\ fst (createInvoice Stub.no_state Stub.invoice_12_50
                Scenario.world_failing)
         = Returned {| st_errors := None;
                       st_message :=
                         Some "Database Error: Failed to Create Invoice." |})
  /\ ((Zod.success (Updateinvoice_safeParse
                      (update_fields Scenario.misspelled_invoice)) = true
       /\ hd false (faults Scenario.world_failing) = true)
      /\ fst (updateInvoice "7" Stub.no_state Scenario.misspelled_invoice
                Scenario.world_failing)
         = Returned {| st_errors := None;
                       st_message :=
                         Some "Database Error: Failed to Update Invoice" |}).
Proof.
  destruct (errors_key_tells_validation_failures Stub.email_pattern Stub.hash)
    as [Hsignup [Hts [Hcreate Hupdate]]].
  split; [| split; [| split; [| split]]].
  - split; [reflexivity |].
    exact (proj1 (Hsignup Stub.no_signup_state Stub.bad_signup Stub.world)
             eq_refl).
  - split; [split; reflexivity |].
    destruct (proj1 (proj2 (proj2 (Hsignup Stub.no_signup_state
                                     Stub.alice_signs_up
                                     Stub.world_with_alice))
                       alice_data eq_refl)
                eq_refl (or_introl eq_refl)) as [Hname | Hemail].
    + exact Hname.
    + discriminate Hemail.
  - split; [reflexivity |].
    exact (proj2 (proj2 (proj2 (Hts Stub.no_signup_state Stub.alice_signs_up
                                  Scenario.world_failing))
                    "alice@example.com" "secret" eq_refl)
             eq_refl).
  - split; [split; reflexivity |].
    exact (proj2 (proj2 (Hcreate Stub.no_state Stub.invoice_12_50
                           Scenario.world_failing))
             eq_refl eq_refl).
  - split; [split; reflexivity |].
    exact (proj2 (proj2 (Hupdate "7" Stub.no_state Scenario.misspelled_invoice
                           Scenario.world_failing))
             eq_refl eq_refl).
Defined.
